(** * NSE option-chain gateway (main.py): a shallow embedding

    The Flask application of [main.py] is a handful of view functions, one
    decorator and three error handlers.  They are embedded here as functions
    in a small monad that carries what the Python code does besides
    computing a value: it may raise, it writes log records and it calls the
    data provider [nse.option_chain].

    Modelling choices, all local to this file:
    - a Python [str] is a [string]; the text model is ASCII, so [upper]
      maps a-z to A-Z and leaves every other character alone;
    - the values handed to [jsonify] are JSON-like Python values ([pyval]),
      a [dict] being an association list in insertion order;
    - [request.headers] and [request.args] are association lists read with
      [get], which returns the first value stored under a key;
    - the libraries the handlers call (the provider, [jsonify], the logger)
      are collected in a [Platform]; each call may raise there. *)

From Stdlib Require Import String Ascii List ZArith Bool Lia.
Import ListNotations.
Local Open Scope string_scope.
Local Open Scope Z_scope.

(** ** Text *)

Module Str.

(** [c.upper()] for one ASCII character. *)
Definition upper_char (c : ascii) : ascii :=
  let n := nat_of_ascii c in
  if (Nat.leb 97 n && Nat.leb n 122)%bool then ascii_of_nat (n - 32) else c.

(** [s.upper()]. *)
Fixpoint upper (s : string) : string :=
  match s with
  | EmptyString => EmptyString
  | String c rest => String (upper_char c) (upper rest)
  end.

(** [s[n:]]. *)
Fixpoint drop (n : nat) (s : string) : string :=
  match n, s with
  | O, _ => s
  | S _, EmptyString => EmptyString
  | S m, String _ rest => drop m rest
  end.

(** [s.startswith(p)]. *)
Definition startswith (s p : string) : bool := String.prefix p s.

(** [sub in s], as a proposition. *)
Definition contains (s sub : string) : Prop :=
  exists before after, s = before ++ sub ++ after.

End Str.

(** ** Python values *)

#[local] Set Warnings "-register-all".

Inductive pyval : Type :=
| PNone
| PBool (b : bool)
| PInt (n : Z)
| PStr (s : string)
| PList (items : list pyval)
| PDict (items : list (string * pyval)).

(** Truth value of an object, as tested by [not x] and [if x]. *)
Definition truthy (v : pyval) : bool :=
  match v with
  | PNone => false
  | PBool b => b
  | PInt n => negb (n =? 0)
  | PStr s => negb (s =? "")%string
  | PList items => match items with [] => false | _ :: _ => true end
  | PDict items => match items with [] => false | _ :: _ => true end
  end.

(** [d.get(key)] on an association list: the first value under [key]. *)
Fixpoint get {A : Type} (same : string -> string -> bool)
    (d : list (string * A)) (key : string) : option A :=
  match d with
  | [] => None
  | (k, v) :: rest => if same k key then Some v else get same rest key
  end.

Definition dict_get (v : pyval) (key : string) : option pyval :=
  match v with
  | PDict items => get String.eqb items key
  | _ => None
  end.

Definition has_key (v : pyval) (key : string) : Prop :=
  exists x, dict_get v key = Some x.

(** ** Exceptions, results and the handler monad *)

(** An exception instance: its class name and [str(e)]. *)
Inductive exn : Type := PyExc (cls : string) (msg : string).

Definition str (e : exn) : string :=
  match e with PyExc _ msg => msg end.

(** How a call ends.  [Raise] carries an instance of [Exception], which
    [except Exception] catches.  [Exit] carries one of the other
    exceptions (SystemExit, KeyboardInterrupt, GeneratorExit), which
    neither [except Exception] nor Flask's dispatch catches. *)
Inductive result (A : Type) : Type :=
| Ok (a : A)
| Raise (e : exn)
| Exit (e : exn).
Arguments Ok {A} a.
Arguments Raise {A} e.
Arguments Exit {A} e.

Inductive level : Type := INFO | ERROR.

(** What a request leaves behind: log records and provider calls, the
    latter with what the provider answered. *)
Inductive event : Type :=
| Logged (lvl : level) (msg : string)
| Fetched (symbol : string) (outcome : result pyval).

Definition M (A : Type) : Type := list event -> result A * list event.

Definition ret {A : Type} (a : A) : M A := fun t => (Ok a, t).

Definition raise {A : Type} (e : exn) : M A := fun t => (Raise e, t).

Definition bind {A B : Type} (m : M A) (k : A -> M B) : M B :=
  fun t =>
    match m t with
    | (Ok a, t') => k a t'
    | (Raise e, t') => (Raise e, t')
    | (Exit e, t') => (Exit e, t')
    end.

(** [try: m except Exception as e: h e]. *)
Definition try_except {A : Type} (m : M A) (h : exn -> M A) : M A :=
  fun t =>
    match m t with
    | (Ok a, t') => (Ok a, t')
    | (Raise e, t') => h e t'
    | (Exit e, t') => (Exit e, t')
    end.

Notation "x <- m ;; k" := (bind m (fun x => k))
  (at level 61, m at next level, right associativity).
Notation "m ;;; k" := (bind m (fun _ => k))
  (at level 61, right associativity).

(** The provider calls of a trace, in order. *)
Fixpoint fetched (t : list event) : list string :=
  match t with
  | [] => []
  | Logged _ _ :: rest => fetched rest
  | Fetched symbol _ :: rest => symbol :: fetched rest
  end.

(** ** The libraries behind the handlers *)

Record Platform : Type := {
  (** [nse.option_chain(symbol)]: a payload, an exception or an exit. *)
  nse_option_chain : string -> result pyval;
  (** [jsonify(obj)] raises this, if anything. *)
  jsonify_fault : pyval -> option exn;
  (** [logger.info(msg)] / [logger.error(msg)] raises this, if anything. *)
  logger_fault : level -> string -> option exn
}.

(** A platform on which only the provider can fail. *)
Definition reliable (nse : string -> result pyval) : Platform :=
  {| nse_option_chain := nse;
     jsonify_fault := fun _ => None;
     logger_fault := fun _ _ => None |}.

Section Libraries.

Variable pf : Platform.

(** [jsonify(obj)]: the response body is [obj] itself. *)
Definition jsonify (obj : pyval) : M pyval :=
  match jsonify_fault pf obj with
  | Some e => raise e
  | None => ret obj
  end.

Definition logger (lvl : level) (msg : string) : M unit :=
  fun t =>
    match logger_fault pf lvl msg with
    | Some e => (Raise e, t)
    | None => (Ok tt, t ++ [Logged lvl msg])%list
    end.

Definition option_chain (symbol : string) : M pyval :=
  fun t =>
    let outcome := nse_option_chain pf symbol in
    (outcome, t ++ [Fetched symbol outcome])%list.

End Libraries.

(** ** Requests and responses *)

(** HEAD and OPTIONS, which Flask answers by itself on every rule, are
    not among the modelled methods. *)
Inductive http_method : Type := GET | POST | PUT | PATCH | DELETE.

Record Request : Type := {
  req_method : http_method;
  req_path : string;
  req_headers : list (string * string);
  req_args : list (string * string)
}.

(** Header names compare without regard to case. *)
Definition same_header (a b : string) : bool :=
  (Str.upper a =? Str.upper b)%string.

Definition headers_get (request : Request) (name : string) : option string :=
  get same_header (req_headers request) name.

Definition args_get (request : Request) (name : string) : option string :=
  get String.eqb (req_args request) name.

(** A view returns the pair [(jsonify(...), status)]. *)
Record Response : Type := {
  body : pyval;
  status : Z
}.

Definition view : Type := Request -> M Response.

(** The [{'error': ..., 'message': ...}] shape of every failure. *)
Definition error_body (error message : string) : pyval :=
  PDict [("error", PStr error); ("message", PStr message)].

(** ** Start-up (main.py, lines 18-21) *)

Definition load_api_key (env_API_KEY : option string) : result string :=
  match env_API_KEY with
  | Some k =>
      if truthy (PStr k) then Ok k
      else Raise (PyExc "ValueError" "API_KEY environment variable is required")
  | None => Raise (PyExc "ValueError" "API_KEY environment variable is required")
  end.

(** ** The application *)

Section App.

Variable pf : Platform.

(** The module-level [API_KEY], as left by the start-up code. *)
Variable API_KEY : string.

Definition authorization_required : pyval :=
  error_body "Authorization header is required"
             "Please provide Authorization header with your API key".

Definition invalid_api_key : pyval :=
  error_body "Invalid API key" "The provided API key is not valid".

(** The decorator [require_api_key(f)], that is [decorated_function]. *)
Definition require_api_key (f : view) : view :=
  fun request =>
    let auth_header := headers_get request "Authorization" in
    match auth_header with
    | Some header =>
        if negb (truthy (PStr header)) then
          r <- jsonify pf authorization_required ;;
          ret {| body := r; status := 401 |}
        else
          let provided_key :=
            if Str.startswith header "Bearer " then Str.drop 7 header
            else header in
          if negb (provided_key =? API_KEY)%string then
            r <- jsonify pf invalid_api_key ;;
            ret {| body := r; status := 401 |}
          else f request
    | None =>
        r <- jsonify pf authorization_required ;;
        ret {| body := r; status := 401 |}
    end.

Definition healthy : pyval :=
  PDict [("status", PStr "healthy");
         ("message", PStr "NSE Option Chain API is running")].

Definition health_check : view :=
  fun _ =>
    r <- jsonify pf healthy ;;
    ret {| body := r; status := 200 |}.

Definition symbol_required : pyval :=
  error_body "Symbol parameter is required"
             "Please provide a symbol as query parameter".

Definition no_data_found (symbol : string) : pyval :=
  error_body "No data found"
             ("No option chain data found for symbol: " ++ symbol).

Definition option_chain_found (symbol : string) (data : pyval) : pyval :=
  PDict [("success", PBool true); ("symbol", PStr symbol); ("data", data)].

Definition nse_api_error (nse_error : exn) : pyval :=
  error_body "NSE API error"
             ("Failed to fetch data from NSE: " ++ str nse_error).

Definition unexpected_error : pyval :=
  error_body "Internal server error" "An unexpected error occurred".

(** Lines 80-100: the inner [try] with its [except] clause. *)
Definition fetch_option_chain (symbol : string) : M Response :=
  try_except
    (option_chain_data <- option_chain pf symbol ;;
     if negb (truthy option_chain_data) then
       r <- jsonify pf (no_data_found symbol) ;;
       ret {| body := r; status := 404 |}
     else
       r <- jsonify pf (option_chain_found symbol option_chain_data) ;;
       ret {| body := r; status := 200 |})
    (fun nse_error =>
       logger pf ERROR
         ("NSE API error for symbol " ++ symbol ++ ": " ++ str nse_error) ;;;
       r <- jsonify pf (nse_api_error nse_error) ;;
       ret {| body := r; status := 500 |}).

(** Lines 65-100: the body of the outer [try]. *)
Definition get_option_chain_body (request : Request) : M Response :=
  let symbol := args_get request "symbol" in
  match symbol with
  | Some symbol =>
      if negb (truthy (PStr symbol)) then
        r <- jsonify pf symbol_required ;;
        ret {| body := r; status := 400 |}
      else
        let symbol := Str.upper symbol in
        logger pf INFO ("Fetching option chain for symbol: " ++ symbol) ;;;
        fetch_option_chain symbol
  | None =>
      r <- jsonify pf symbol_required ;;
      ret {| body := r; status := 400 |}
  end.

(** The undecorated [get_option_chain]. *)
Definition get_option_chain_view : view :=
  fun request =>
    try_except
      (get_option_chain_body request)
      (fun e =>
         logger pf ERROR ("Unexpected error: " ++ str e) ;;;
         r <- jsonify pf unexpected_error ;;
         ret {| body := r; status := 500 |}).

(** [get_option_chain] as the module binds it, behind the decorator. *)
Definition get_option_chain : view :=
  require_api_key get_option_chain_view.

Definition api_information : pyval :=
  PDict [("message", PStr "NSE Option Chain API");
         ("version", PStr "1.0.0");
         ("endpoints",
          PDict [("option_chain", PStr "/option-chain?symbol=<SYMBOL>");
                 ("health", PStr "/health")]);
         ("authentication",
          PStr "Required - Pass API key in Authorization header")].

Definition root : view :=
  fun _ =>
    r <- jsonify pf api_information ;;
    ret {| body := r; status := 200 |}.

Definition not_found : M Response :=
  r <- jsonify pf (error_body "Endpoint not found"
                              "The requested endpoint does not exist") ;;
  ret {| body := r; status := 404 |}.

Definition method_not_allowed : M Response :=
  r <- jsonify pf
         (error_body "Method not allowed"
                     "The request method is not allowed for this endpoint") ;;
  ret {| body := r; status := 405 |}.

Definition internal_error (error : exn) : M Response :=
  r <- jsonify pf (error_body "Internal server error"
                              "An internal server error occurred") ;;
  ret {| body := r; status := 500 |}.

(** The [@app.route] table: rule, methods, view function.  These are the
    rules [main.py] declares; what Flask answers by itself (its static
    rule, redirects) is not part of the table. *)
Definition url_map : list (string * (list http_method * view)) :=
  [("/health", ([GET], health_check));
   ("/option-chain", ([GET], get_option_chain));
   ("/", ([GET], root))].

Definition method_eqb (a b : http_method) : bool :=
  match a, b with
  | GET, GET | POST, POST | PUT, PUT | PATCH, PATCH | DELETE, DELETE => true
  | _, _ => false
  end.

(** One request through the application: routing, the view, and the
    registered handlers for 404, 405 and 500.  An [Exception] that leaves
    a view goes to the 500 handler, as Flask does outside debug mode; an
    [Exit] goes through.  A path outside the table gets the 404 handler
    here; Flask's own static rule and its redirects are not modelled. *)
Definition app (request : Request) : M Response :=
  match get String.eqb url_map (req_path request) with
  | None => not_found
  | Some (methods, f) =>
      if existsb (method_eqb (req_method request)) methods then
        try_except (f request) internal_error
      else method_not_allowed
  end.

End App.

(** ** What the claims speak of *)

(** A request to a rule of the application. *)
Definition request_to (rule : string) (request : Request) : Prop :=
  req_method request = GET /\ req_path request = rule.

(** The header values that carry the secret [key]: the bearer form, and the
    raw form as long as the secret does not itself read as a bearer form. *)
Definition accepted (key header : string) : Prop :=
  header = "Bearer " ++ key \/
  (header = key /\ Str.startswith key "Bearer " = false).

Definition valid_credential (key : string) (request : Request) : Prop :=
  exists header,
    headers_get request "Authorization" = Some header /\ accepted key header.

(** The response of a refusal, when [jsonify] works. *)
Definition unauthorized (why : pyval) : Response :=
  {| body := why; status := 401 |}.

(** The body of a result, when there is a response. *)
Definition body_of (r : result Response) : option pyval :=
  match r with
  | Ok response => Some (body response)
  | Raise _ | Exit _ => None
  end.

(** The refusal with body [why], as the decorator builds it. *)
Definition refuse (pf : Platform) (why : pyval) : M Response :=
  r <- jsonify pf why ;; ret {| body := r; status := 401 |}.

(** What a request with a symbol that is not empty comes to when only the
    provider can fail: the response and the trace. *)
Definition symbol_run (nse : string -> result pyval) (symbol : string)
  : result Response * list event :=
  let t := [Logged INFO ("Fetching option chain for symbol: " ++ symbol);
            Fetched symbol (nse symbol)] in
  match nse symbol with
  | Ok data =>
      if truthy data then
        (Ok {| body := option_chain_found symbol data; status := 200 |}, t)
      else (Ok {| body := no_data_found symbol; status := 404 |}, t)
  | Raise nse_error =>
      (Ok {| body := nse_api_error nse_error; status := 500 |},
       t ++ [Logged ERROR ("NSE API error for symbol " ++ symbol ++ ": "
                           ++ str nse_error)])%list
  | Exit e => (Exit e, t)
  end.

(** The same when [jsonify] may refuse the success body: the refusal is
    caught by the [except] clause of the provider block. *)
Definition payload_run (pf : Platform) (symbol : string)
  : result Response * list event :=
  let t := [Logged INFO ("Fetching option chain for symbol: " ++ symbol);
            Fetched symbol (nse_option_chain pf symbol)] in
  let failed (nse_error : exn) :=
    (Ok {| body := nse_api_error nse_error; status := 500 |},
     t ++ [Logged ERROR ("NSE API error for symbol " ++ symbol ++ ": "
                         ++ str nse_error)])%list in
  match nse_option_chain pf symbol with
  | Ok data =>
      if truthy data then
        match jsonify_fault pf (option_chain_found symbol data) with
        | None =>
            (Ok {| body := option_chain_found symbol data; status := 200 |},
             t)
        | Some e => failed e
        end
      else (Ok {| body := no_data_found symbol; status := 404 |}, t)
  | Raise nse_error => failed nse_error
  | Exit e => (Exit e, t)
  end.

(** ** Sample requests and platforms *)

Module Sample.

Definition key : string := "nse-key-1".

(** A secret that itself starts with the bearer prefix. *)
Definition bearer_key : string := "Bearer abc".

Definition payload : pyval :=
  PDict [("strikes", PList [PInt 100; PInt 110])].

(** A provider that knows INFY, has nothing on FAKE and times out on SLOW. *)
Definition nse (symbol : string) : result pyval :=
  if (symbol =? "INFY")%string then Ok payload
  else if (symbol =? "SLOW")%string then Raise (PyExc "TimeoutError" "timeout")
  else Ok PNone.

Definition option_chain_request (headers args : list (string * string))
  : Request :=
  {| req_method := GET; req_path := "/option-chain";
     req_headers := headers; req_args := args |}.

Definition with_key (args : list (string * string)) : Request :=
  option_chain_request [("Authorization", "Bearer nse-key-1")] args.

Definition health_request : Request :=
  {| req_method := GET; req_path := "/health";
     req_headers := [("Authorization", "Bearer WRONGKEY")]; req_args := [] |}.

(** [jsonify] refuses every body that carries a provider payload. *)
Definition unserializable : Platform :=
  {| nse_option_chain := nse;
     jsonify_fault := fun obj =>
       match dict_get obj "data" with
       | Some _ => Some (PyExc "TypeError" "Object is not JSON serializable")
       | None => None
       end;
     logger_fault := fun _ _ => None |}.

End Sample.

(** ** Routes and failure bodies *)

(** The rules the application registers. *)
Definition registered (path : string) : Prop :=
  path = "/health" \/ path = "/option-chain" \/ path = "/".

(** The libraries as they behave under the program: logging returns, and
    [jsonify] can refuse only a body that carries a provider payload. *)
Definition payload_faults_only (pf : Platform) : Prop :=
  (forall (lvl : level) (msg : string), logger_fault pf lvl msg = None) /\
  (forall obj : pyval,
     dict_get obj "data" = None -> jsonify_fault pf obj = None).

(** [c] is one of the letters a to z. *)
Definition is_lower (c : ascii) : bool :=
  (Nat.leb (nat_of_ascii "a") (nat_of_ascii c)
   && Nat.leb (nat_of_ascii c) (nat_of_ascii "z"))%bool.

(** ** More sample requests *)

Module Probe.

Definition post_option_chain : Request :=
  {| req_method := POST; req_path := "/option-chain";
     req_headers := [("Authorization", "Bearer nse-key-1")];
     req_args := [("symbol", "INFY")] |}.

Definition root_request : Request :=
  {| req_method := GET; req_path := "/"; req_headers := []; req_args := [] |}.

Definition wrong_key : Request :=
  Sample.option_chain_request [("Authorization", "Bearer WRONGKEY")]
    [("symbol", "INFY")].

End Probe.

(** ** Text lemmas *)

Module StrFacts.
Import Str.

Lemma upper_char_idem (c : ascii) : upper_char (upper_char c) = upper_char c.
Proof.
  destruct c as [[] [] [] [] [] [] [] []]; reflexivity.
Qed.

Lemma upper_idem (s : string) : upper (upper s) = upper s.
Proof.
  induction s as [|c rest IH]; simpl.
  - reflexivity.
  - now rewrite upper_char_idem, IH.
Qed.

Lemma upper_nonempty (s : string) : s <> "" -> upper s <> "".
Proof.
  destruct s; simpl; [congruence | discriminate].
Qed.

Lemma startswith_app (p s : string) : startswith (p ++ s) p = true.
Proof.
  unfold startswith.
  induction p as [|a p IH]; simpl.
  - now destruct s.
  - destruct (ascii_dec a a) as [_|ne]; [exact IH | now elim ne].
Qed.

Lemma drop_app (p s : string) : drop (String.length p) (p ++ s) = s.
Proof.
  induction p as [|a p IH]; simpl; [reflexivity | exact IH].
Qed.

Lemma startswith_split (p s : string) :
  startswith s p = true -> s = p ++ drop (String.length p) s.
Proof.
  unfold startswith.
  revert s; induction p as [|a p IH]; intros s H; simpl.
  - reflexivity.
  - destruct s as [|b s]; simpl in H; [discriminate|].
    destruct (ascii_dec a b) as [->|_]; [|discriminate].
    simpl. now rewrite <- (IH s H).
Qed.

Lemma length_append (p s : string) :
  String.length (p ++ s) = (String.length p + String.length s)%nat.
Proof.
  induction p as [|a p IH]; simpl; [reflexivity | now rewrite IH].
Qed.

Lemma append_empty (s : string) : s ++ "" = s.
Proof.
  induction s as [|a s IH]; simpl; [reflexivity | now rewrite IH].
Qed.

Lemma app_length_neq (p s : string) : p <> "" -> p ++ s <> s.
Proof.
  intros Hp E.
  assert (L : String.length (p ++ s) = String.length s) by now rewrite E.
  rewrite length_append in L.
  destruct p; [now apply Hp | simpl in L; lia].
Qed.

Lemma contains_suffix (p s : string) : contains (p ++ s) s.
Proof.
  exists p, "". now rewrite append_empty.
Qed.

End StrFacts.

(** ** The start-up check and the authentication gate *)

Lemma load_api_key_set (env : option string) (key : string) :
  load_api_key env = Ok key -> key <> "".
Proof.
  destruct env as [k|]; simpl; [|discriminate].
  destruct k as [|c k]; simpl; [discriminate|].
  intros H; inversion H; discriminate.
Qed.

Lemma truthy_str (s : string) : s <> "" -> truthy (PStr s) = true.
Proof.
  destruct s; simpl; [congruence | reflexivity].
Qed.

Lemma jsonify_reliable (nse : string -> result pyval) (obj : pyval) :
  jsonify (reliable nse) obj = ret obj.
Proof. reflexivity. Qed.

Section Gate.

Variable pf : Platform.
Variable key : string.
Hypothesis key_set : key <> "".

Variable request : Request.

Lemma gate_no_header (f : view) :
  headers_get request "Authorization" = None ->
  require_api_key pf key f request = refuse pf authorization_required.
Proof.
  intros H. unfold require_api_key. now rewrite H.
Qed.

Lemma gate_open (f : view) (header : string) :
  headers_get request "Authorization" = Some header ->
  accepted key header ->
  require_api_key pf key f request = f request.
Proof.
  intros H [->|[-> Hraw]]; unfold require_api_key; rewrite H.
  - change (truthy (PStr ("Bearer " ++ key))) with true.
    rewrite (StrFacts.startswith_app "Bearer " key).
    change 7%nat with (String.length "Bearer ").
    rewrite StrFacts.drop_app, String.eqb_refl. reflexivity.
  - rewrite (truthy_str key key_set), Hraw, String.eqb_refl. reflexivity.
Qed.

Lemma gate_closed (header : string) :
  headers_get request "Authorization" = Some header ->
  ~ accepted key header ->
  exists why : pyval,
    forall f : view, require_api_key pf key f request = refuse pf why.
Proof.
  intros H Hno. unfold require_api_key; rewrite H.
  destruct (truthy (PStr header)); cbn [negb];
    [|now exists authorization_required].
  destruct (Str.startswith header "Bearer ") eqn:Hpre.
  - destruct (String.eqb_spec (Str.drop 7 header) key) as [E|_];
      cbn [negb]; [|now exists invalid_api_key].
    exfalso; apply Hno; left.
    rewrite (StrFacts.startswith_split _ _ Hpre). simpl String.length.
    now rewrite E.
  - destruct (String.eqb_spec header key) as [E|_]; cbn [negb];
      [|now exists invalid_api_key].
    exfalso; apply Hno; right. subst header. now split.
Qed.

End Gate.

(** ** The views on a reliable platform *)

Lemma app_option_chain (pf : Platform) (key : string) (request : Request) :
  request_to "/option-chain" request ->
  app pf key request =
  try_except (get_option_chain pf key request) (internal_error pf).
Proof.
  intros [Hm Hp]. unfold app. rewrite Hp, Hm. reflexivity.
Qed.

Lemma authorized_option_chain (pf : Platform) (key : string)
    (request : Request) :
  key <> "" ->
  request_to "/option-chain" request ->
  valid_credential key request ->
  app pf key request =
  try_except (get_option_chain_view pf request) (internal_error pf).
Proof.
  intros Hk Hto [header [Hh Hacc]].
  rewrite (app_option_chain _ _ _ Hto). unfold get_option_chain.
  now rewrite (gate_open pf key Hk request _ header Hh Hacc).
Qed.

Section Reliable.

Variable nse : string -> result pyval.
Variable request : Request.

Lemma view_without_symbol (t : list event) :
  args_get request "symbol" = None \/ args_get request "symbol" = Some "" ->
  get_option_chain_view (reliable nse) request t =
  (Ok {| body := symbol_required; status := 400 |}, t).
Proof.
  intros [H|H]; unfold get_option_chain_view, get_option_chain_body,
    try_except; rewrite H; reflexivity.
Qed.

Lemma view_with_symbol (symbol : string) :
  args_get request "symbol" = Some symbol ->
  symbol <> "" ->
  get_option_chain_view (reliable nse) request [] =
  symbol_run nse (Str.upper symbol).
Proof.
  intros H Hs.
  unfold get_option_chain_view, get_option_chain_body, symbol_run.
  rewrite H, (truthy_str symbol Hs).
  unfold try_except, fetch_option_chain, try_except, bind, logger,
    option_chain, jsonify, ret; simpl.
  destruct (nse (Str.upper symbol)) as [data|e|e]; [|reflexivity..].
  destruct (truthy data); reflexivity.
Qed.

End Reliable.

(** ** Authorized requests to [/option-chain], end to end *)

Section Authorized.

Variable nse : string -> result pyval.
Variable key : string.
Variable request : Request.

Hypothesis key_set : key <> "".
Hypothesis to_option_chain : request_to "/option-chain" request.
Hypothesis authorized : valid_credential key request.

Lemma run_without_symbol :
  args_get request "symbol" = None \/ args_get request "symbol" = Some "" ->
  app (reliable nse) key request [] =
  (Ok {| body := symbol_required; status := 400 |}, []).
Proof.
  intros H.
  rewrite (authorized_option_chain _ _ _ key_set to_option_chain authorized).
  unfold try_except. now rewrite (view_without_symbol nse request [] H).
Qed.

Lemma run_with_symbol (symbol : string) :
  args_get request "symbol" = Some symbol ->
  symbol <> "" ->
  app (reliable nse) key request [] = symbol_run nse (Str.upper symbol).
Proof.
  intros H Hs.
  rewrite (authorized_option_chain _ _ _ key_set to_option_chain authorized).
  unfold try_except. rewrite (view_with_symbol nse request symbol H Hs).
  unfold symbol_run.
  destruct (nse (Str.upper symbol)) as [data|e|e]; [|reflexivity..].
  destruct (truthy data); reflexivity.
Qed.

End Authorized.

Lemma symbol_run_calls (nse : string -> result pyval) (symbol : string) :
  fetched (snd (symbol_run nse symbol)) = [symbol].
Proof.
  unfold symbol_run.
  destruct (nse symbol) as [data|e|e]; [|reflexivity..].
  destruct (truthy data); reflexivity.
Qed.

Lemma symbol_run_outcome (nse : string -> result pyval) (symbol called : string)
    (outcome : result pyval) :
  In (Fetched called outcome) (snd (symbol_run nse symbol)) ->
  called = symbol /\ outcome = nse symbol.
Proof.
  unfold symbol_run.
  assert (G : forall t' : list event,
             (forall x, In x t' -> exists l m, x = Logged l m) ->
             In (Fetched called outcome)
                (Logged INFO ("Fetching option chain for symbol: " ++ symbol)
                 :: Fetched symbol (nse symbol) :: t') ->
             called = symbol /\ outcome = nse symbol).
  { intros t' Ht' [E|[E|E]].
    - discriminate.
    - now inversion E.
    - destruct (Ht' _ E) as [l [m E']]; discriminate. }
  destruct (nse symbol) as [data|e|e].
  - destruct (truthy data); simpl snd; apply (G []); intros x [].
  - simpl snd. apply G. intros x [<-|[]]. now eexists _, _.
  - simpl snd. apply (G []); intros x [].
Qed.

Lemma accepted_dec (key header : string) :
  accepted key header \/ ~ accepted key header.
Proof.
  unfold accepted.
  destruct (string_dec header ("Bearer " ++ key)) as [E|N]; [now left; left|].
  destruct (string_dec header key) as [E|N']; [|right; intros [?|[? _]]; tauto].
  destruct (Str.startswith key "Bearer ") eqn:P.
  - right; intros [?|[_ ?]]; [tauto | discriminate].
  - left; right; now split.
Qed.

(** ** Routing and the gate on an arbitrary platform *)

Lemma load_api_key_spec (env : option string) (key : string) :
  load_api_key env = Ok key <-> (env = Some key /\ key <> "").
Proof.
  split.
  - intros H. split; [|exact (load_api_key_set env key H)].
    destruct env as [k|]; simpl in H; [|discriminate].
    destruct k; simpl in H; [discriminate | now inversion H].
  - intros [-> Hk]. unfold load_api_key. now rewrite (truthy_str key Hk).
Qed.

Lemma app_unknown_path (pf : Platform) (key : string) (request : Request) :
  ~ registered (req_path request) ->
  app pf key request = not_found pf.
Proof.
  intros H. unfold app, url_map. cbn [get].
  destruct (String.eqb_spec "/health" (req_path request)) as [E|_];
    [exfalso; apply H; left; now rewrite <- E|].
  destruct (String.eqb_spec "/option-chain" (req_path request)) as [E|_];
    [exfalso; apply H; right; left; now rewrite <- E|].
  destruct (String.eqb_spec "/" (req_path request)) as [E|_];
    [exfalso; apply H; right; right; now rewrite <- E|].
  reflexivity.
Qed.

Lemma app_wrong_method (pf : Platform) (key : string) (request : Request) :
  registered (req_path request) ->
  req_method request <> GET ->
  app pf key request = method_not_allowed pf.
Proof.
  intros H Hm. unfold app.
  assert (G : existsb (method_eqb (req_method request)) [GET] = false)
    by (destruct (req_method request); [now elim Hm | | | |]; reflexivity).
  destruct H as [-> | [-> | ->]]; cbn [get url_map String.eqb Ascii.eqb Bool.eqb];
    simpl get; now rewrite G.
Qed.

Lemma path_dec (path : string) : registered path \/ ~ registered path.
Proof.
  unfold registered.
  destruct (string_dec path "/health"); [tauto|].
  destruct (string_dec path "/option-chain"); [tauto|].
  destruct (string_dec path "/"); tauto.
Qed.

Lemma method_dec (m : http_method) : m = GET \/ m <> GET.
Proof. destruct m; [now left | | | |]; right; discriminate. Qed.

Lemma app_health (pf : Platform) (key : string) (request : Request) :
  request_to "/health" request ->
  app pf key request = try_except (health_check pf request) (internal_error pf).
Proof. intros [Hm Hp]. unfold app. rewrite Hp, Hm. reflexivity. Qed.

Lemma app_root (pf : Platform) (key : string) (request : Request) :
  request_to "/" request ->
  app pf key request = try_except (root pf request) (internal_error pf).
Proof. intros [Hm Hp]. unfold app. rewrite Hp, Hm. reflexivity. Qed.

(** The shapes a run of the application can take. *)
Lemma app_cases (pf : Platform) (key : string) (request : Request) :
  (~ registered (req_path request) /\ app pf key request = not_found pf) \/
  (registered (req_path request) /\ req_method request <> GET /\
   app pf key request = method_not_allowed pf) \/
  (request_to "/health" request /\
   app pf key request
   = try_except (health_check pf request) (internal_error pf)) \/
  (request_to "/" request /\
   app pf key request = try_except (root pf request) (internal_error pf)) \/
  (request_to "/option-chain" request /\
   app pf key request
   = try_except (get_option_chain pf key request) (internal_error pf)).
Proof.
  destruct (path_dec (req_path request)) as [Hreg|Hno];
    [|left; split; [exact Hno | exact (app_unknown_path pf key request Hno)]].
  destruct (method_dec (req_method request)) as [Hm|Hm];
    [|right; left; split; [exact Hreg | split;
       [exact Hm | exact (app_wrong_method pf key request Hreg Hm)]]].
  destruct Hreg as [Hp | [Hp | Hp]].
  - right; right; left. split; [now split | now apply app_health].
  - right; right; right; right. split; [now split | now apply app_option_chain].
  - right; right; right; left. split; [now split | now apply app_root].
Qed.

Lemma gate_either (pf : Platform) (key : string) (request : Request) :
  (forall f : view, require_api_key pf key f request = f request) \/
  (exists why : pyval,
     (why = authorization_required \/ why = invalid_api_key) /\
     forall f : view, require_api_key pf key f request = refuse pf why).
Proof.
  unfold require_api_key.
  destruct (headers_get request "Authorization") as [header|];
    [|right; exists authorization_required; split; [now left | reflexivity]].
  destruct (truthy (PStr header)); cbn [negb];
    [|right; exists authorization_required; split; [now left | reflexivity]].
  destruct (negb _);
    [right; exists invalid_api_key; split; [now right | reflexivity]
    | now left].
Qed.

Lemma gate_by_credential (pf : Platform) (key : string) (request : Request) :
  key <> "" ->
  (valid_credential key request /\
   forall f : view, require_api_key pf key f request = f request) \/
  (~ valid_credential key request /\
   exists why : pyval,
     forall f : view, require_api_key pf key f request = refuse pf why).
Proof.
  intros Hk.
  destruct (headers_get request "Authorization") as [header|] eqn:Hh.
  - destruct (accepted_dec key header) as [Hacc|Hno].
    + left. split; [now exists header|].
      intros f. exact (gate_open pf key Hk request f header Hh Hacc).
    + right. split.
      * intros [h [Hh' Hacc]]. rewrite Hh in Hh'. inversion Hh'; subst.
        contradiction.
      * exact (gate_closed pf key request header Hh Hno).
  - right. split.
    + intros [h [Hh' _]]. rewrite Hh in Hh'. discriminate.
    + exists authorization_required. intros f.
      exact (gate_no_header pf key request f Hh).
Qed.

(** The registered 500 handler and the refusals leave no trace. *)
Lemma internal_error_quiet (pf : Platform) (m : M Response)
    (t : list event) :
  snd (try_except m (internal_error pf) t) = snd (m t).
Proof.
  unfold try_except, internal_error, bind, jsonify, ret, raise.
  destruct (m t) as [[r|e|e] t']; [reflexivity | | reflexivity].
  destruct (jsonify_fault pf _); reflexivity.
Qed.

Lemma refuse_quiet (pf : Platform) (why : pyval) (t : list event) :
  snd (refuse pf why t) = t.
Proof.
  unfold refuse, bind, jsonify, ret, raise.
  destruct (jsonify_fault pf why); reflexivity.
Qed.

Lemma fixed_answers_quiet (pf : Platform) (request : Request) :
  snd (not_found pf []) = [] /\
  snd (method_not_allowed pf []) = [] /\
  snd (health_check pf request []) = [] /\
  snd (root pf request []) = [].
Proof.
  unfold not_found, method_not_allowed, health_check, root, bind, jsonify,
    ret, raise.
  repeat split; destruct (jsonify_fault pf _); reflexivity.
Qed.

Lemma in_fetched (called : string) (outcome : result pyval)
    (t : list event) :
  In (Fetched called outcome) t -> In called (fetched t).
Proof.
  induction t as [|[l m|c o] t IH]; simpl; [tauto | |].
  - intros [E|H]; [discriminate | exact (IH H)].
  - intros [E|H]; [left; now inversion E | right; exact (IH H)].
Qed.

Lemma upper_empty (s : string) : Str.upper s = "" -> s = "".
Proof. destruct s; [reflexivity | discriminate]. Qed.

(** Case analysis of a run on an arbitrary platform. *)
Ltac split_run :=
  repeat (cbn;
    match goal with
    | |- context [match logger_fault ?pf ?l ?m with _ => _ end] =>
        destruct (logger_fault pf l m) eqn:?
    | |- context [match jsonify_fault ?pf ?o with _ => _ end] =>
        destruct (jsonify_fault pf o) eqn:?
    | |- context [match nse_option_chain ?pf ?s with _ => _ end] =>
        destruct (nse_option_chain pf s) eqn:?
    | |- context [truthy ?d] => is_var d; destruct (truthy d) eqn:?
    end);
  cbn.

Ltac close_in :=
  repeat match goal with
         | H : _ \/ _ |- _ => destruct H
         | H : False |- _ => destruct H
         | H : In _ _ |- _ => cbn in H
         end;
  try discriminate;
  try match goal with
      | H : Fetched _ _ = Fetched _ _ |- _ => inversion H; subst
      end.

Ltac pick_status := cbn; repeat (first [left; reflexivity | right]).

Ltac answer_plain :=
  eexists _, _; split; [reflexivity|]; split; [pick_status|]; split;
    [ let Hs := fresh in
      intros Hs; first [now elim Hs | eexists _, _; reflexivity]
    | discriminate ].

Ltac run_option_chain :=
  unfold get_option_chain_view, get_option_chain_body,
    fetch_option_chain, internal_error, try_except, bind, ret, raise,
    jsonify, logger, option_chain.

Ltac read_response r :=
  let Hr := fresh "Hr" in
  let Hs := fresh "Hs" in
  intros Hr Hs; inversion Hr; subst r; try discriminate.

Lemma view_calls (pf : Platform) (request : Request) :
  fetched (snd (get_option_chain_view pf request [])) = [] \/
  exists symbol : string,
    args_get request "symbol" = Some symbol /\ symbol <> "" /\
    fetched (snd (get_option_chain_view pf request [])) = [Str.upper symbol] /\
    forall (called : string) (outcome : result pyval),
      In (Fetched called outcome) (snd (get_option_chain_view pf request []))
      -> called = Str.upper symbol /\
         outcome = nse_option_chain pf (Str.upper symbol).
Proof.
  unfold get_option_chain_view, get_option_chain_body, fetch_option_chain,
    try_except, bind, ret, raise, jsonify, logger, option_chain.
  destruct (args_get request "symbol") as [[|c s]|]; [| |].
  - split_run; now left.
  - split_run. all: try (now left).
    all: right; exists (String c s); split; [reflexivity|];
      (split; [discriminate|]); (split; [reflexivity|]).
    all: intros called outcome Hin; close_in.
    all: split; [reflexivity | cbn; congruence].
  - split_run; now left.
Qed.

Lemma app_calls_any (pf : Platform) (key : string) (request : Request) :
  fetched (snd (app pf key request [])) = [] \/
  exists symbol : string,
    args_get request "symbol" = Some symbol /\ symbol <> "" /\
    fetched (snd (app pf key request [])) = [Str.upper symbol].
Proof.
  destruct (fixed_answers_quiet pf request) as [Q1 [Q2 [Q3 Q4]]].
  destruct (app_cases pf key request)
    as [[_ E] | [[_ [_ E]] | [[_ E] | [[_ E] | [_ E]]]]]; rewrite E;
    rewrite ?internal_error_quiet;
    try (left; first [now rewrite Q1 | now rewrite Q2 | now rewrite Q3
                     | now rewrite Q4]).
  unfold get_option_chain.
  destruct (gate_either pf key request) as [G | [why [_ G]]]; rewrite G.
  - destruct (view_calls pf request) as [V | [symbol [V1 [V2 [V3 _]]]]];
      [now left | right; now exists symbol].
  - left. now rewrite refuse_quiet.
Qed.

Lemma app_calls (pf : Platform) (key : string) (request : Request) :
  key <> "" ->
  fetched (snd (app pf key request [])) = [] \/
  (request_to "/option-chain" request /\
   valid_credential key request /\
   exists symbol : string,
     args_get request "symbol" = Some symbol /\ symbol <> "" /\
     forall (called : string) (outcome : result pyval),
       In (Fetched called outcome) (snd (app pf key request [])) ->
       called = Str.upper symbol /\
       outcome = nse_option_chain pf (Str.upper symbol)).
Proof.
  intros Hk.
  destruct (fixed_answers_quiet pf request) as [Q1 [Q2 [Q3 Q4]]].
  destruct (app_cases pf key request)
    as [[_ E] | [[_ [_ E]] | [[_ E] | [[_ E] | [Hto E]]]]]; rewrite E;
    rewrite ?internal_error_quiet;
    try (left; first [now rewrite Q1 | now rewrite Q2 | now rewrite Q3
                     | now rewrite Q4]).
  unfold get_option_chain.
  destruct (gate_by_credential pf key request Hk) as [[Hv G] | [_ [why G]]];
    rewrite G.
  - destruct (view_calls pf request) as [V | [symbol [V1 [V2 [_ V4]]]]];
      [now left|].
    right. split; [exact Hto | split; [exact Hv|]]. now exists symbol.
  - left. now rewrite refuse_quiet.
Qed.

(** Faults that [payload_faults_only] rules out. *)
Ltac no_fault Hpf :=
  let Hlog := fresh "Hlog" in
  let Hjs := fresh "Hjs" in
  pose proof (proj1 Hpf) as Hlog; pose proof (proj2 Hpf) as Hjs;
  repeat match goal with
         | H : logger_fault _ _ _ = Some _ |- _ =>
             rewrite Hlog in H; discriminate
         | H : jsonify_fault _ ?obj = Some _ |- _ =>
             rewrite (Hjs obj eq_refl) in H; discriminate
         end.

Lemma reliable_payload_faults_only (nse : string -> result pyval) :
  payload_faults_only (reliable nse).
Proof. split; reflexivity. Qed.

Lemma run_with_symbol_any (pf : Platform) (key : string) (request : Request)
    (symbol : string) :
  payload_faults_only pf ->
  key <> "" ->
  request_to "/option-chain" request ->
  valid_credential key request ->
  args_get request "symbol" = Some symbol ->
  symbol <> "" ->
  app pf key request [] = payload_run pf (Str.upper symbol).
Proof.
  intros Hpf Hk Hto Hv Hsym Hs.
  rewrite (authorized_option_chain pf key request Hk Hto Hv).
  unfold payload_run. run_option_chain.
  rewrite Hsym, (truthy_str symbol Hs).
  split_run; no_fault Hpf; reflexivity.
Qed.

Lemma upper_no_lower (s : string) (c : ascii) :
  In c (list_ascii_of_string (Str.upper s)) -> is_lower c = false.
Proof.
  induction s as [|a s IH]; simpl; [tauto|].
  intros [<- | H]; [|exact (IH H)].
  destruct a as [[] [] [] [] [] [] [] []]; reflexivity.
Qed.

(** ** The claims *)

(** C1 (amended).  For a request to /option-chain that carries an
    Authorization header, the wrapped view runs if and only if the header
    is ["Bearer "] followed by the secret, or is the secret itself and the
    secret does not start with ["Bearer "]; every other header value is
    answered with status 401 and the view is not run.  This holds for
    every secret the start-up check lets through. *)
Theorem require_api_key_accepts (env : option string) (key : string)
    (nse : string -> result pyval) (request : Request) (header : string) :
  load_api_key env = Ok key ->
  request_to "/option-chain" request ->
  headers_get request "Authorization" = Some header ->
  ((forall (f : view) (t : list event),
      require_api_key (reliable nse) key f request t = f request t)
   <-> accepted key header)
  /\ (~ accepted key header ->
      exists r : Response,
        status r = 401 /\
        app (reliable nse) key request [] = (Ok r, []) /\
        forall (f : view) (t : list event),
          require_api_key (reliable nse) key f request t = (Ok r, t)).
Proof.
  intros Hload Hto Hh.
  pose proof (load_api_key_set env key Hload) as Hk.
  assert (Hclosed : ~ accepted key header ->
            exists r : Response,
              status r = 401 /\
              forall (f : view) (t : list event),
                require_api_key (reliable nse) key f request t = (Ok r, t)).
  { intros Hno.
    destruct (gate_closed (reliable nse) key request header Hh Hno)
      as [why Hwhy].
    exists (unauthorized why); split; [reflexivity|].
    intros f t. now rewrite Hwhy. }
  split; [split|].
  - intros Hrun.
    destruct (accepted_dec key header) as [Hacc|Hno]; [exact Hacc|].
    destruct (Hclosed Hno) as [r [Hr Hall]].
    specialize (Hall (fun _ => ret {| body := PNone; status := 200 |}) []).
    rewrite Hrun in Hall. inversion Hall as [E]. rewrite <- E in Hr.
    discriminate.
  - intros Hacc f t.
    now rewrite (gate_open (reliable nse) key Hk request f header Hh Hacc).
  - intros Hno. destruct (Hclosed Hno) as [r [Hr Hall]].
    exists r; repeat split; [exact Hr | | exact Hall].
    rewrite (app_option_chain _ _ _ Hto). unfold try_except, get_option_chain.
    now rewrite Hall.
Qed.

Lemma require_api_key_accepts_witness :
  load_api_key (Some Sample.key) = Ok Sample.key /\
  request_to "/option-chain" (Sample.with_key []) /\
  headers_get (Sample.with_key []) "Authorization" = Some "Bearer nse-key-1" /\
  forall (f : view) (t : list event),
    require_api_key (reliable Sample.nse) Sample.key f (Sample.with_key []) t
    = f (Sample.with_key []) t.
Proof.
  assert (H1 : load_api_key (Some Sample.key) = Ok Sample.key)
    by reflexivity.
  assert (H2 : request_to "/option-chain" (Sample.with_key []))
    by (split; reflexivity).
  assert (H3 : headers_get (Sample.with_key []) "Authorization"
               = Some "Bearer nse-key-1") by reflexivity.
  split; [exact H1 | split; [exact H2 | split; [exact H3|]]].
  apply (proj1 (require_api_key_accepts _ _ Sample.nse _ _ H1 H2 H3)).
  left; reflexivity.
Defined.

(** C1, as stated, fails: with the secret ["Bearer abc"] the header
    ["Bearer abc"] equals the secret, yet the request is refused with 401
    and the wrapped view does not run. *)
Lemma raw_secret_with_bearer_prefix_refused :
  load_api_key (Some Sample.bearer_key) = Ok Sample.bearer_key /\
  headers_get
    (Sample.option_chain_request [("Authorization", "Bearer abc")] [])
    "Authorization" = Some Sample.bearer_key /\
  app (reliable Sample.nse) Sample.bearer_key
      (Sample.option_chain_request [("Authorization", "Bearer abc")] []) []
  = (Ok {| body := invalid_api_key; status := 401 |}, []) /\
  ~ ((forall (f : view) (t : list event),
        require_api_key (reliable Sample.nse) Sample.bearer_key f
          (Sample.option_chain_request [("Authorization", "Bearer abc")] []) t
        = f (Sample.option_chain_request
               [("Authorization", "Bearer abc")] []) t)
     <-> ("Bearer abc" = Sample.bearer_key \/
          "Bearer abc" = "Bearer " ++ Sample.bearer_key)).
Proof.
  repeat split.
  intros [_ H].
  specialize (H (or_introl eq_refl)
                (fun _ => ret {| body := PNone; status := 200 |}) []).
  vm_compute in H. discriminate.
Qed.

(** C3.  A request to /option-chain without an Authorization header is
    answered with status 401 and a body that has an "error" and a "message"
    key; whatever view the decorator wraps is not run, and the provider is
    not called (the trace stays empty). *)
Theorem missing_authorization_rejected (nse : string -> result pyval)
    (key : string) (request : Request) :
  request_to "/option-chain" request ->
  headers_get request "Authorization" = None ->
  exists r : Response,
    app (reliable nse) key request [] = (Ok r, []) /\
    status r = 401 /\
    has_key (body r) "error" /\ has_key (body r) "message" /\
    forall (f : view) (t : list event),
      require_api_key (reliable nse) key f request t = (Ok r, t).
Proof.
  intros Hto Hh.
  exists (unauthorized authorization_required).
  assert (G : forall (f : view) (t : list event),
            require_api_key (reliable nse) key f request t
            = (Ok (unauthorized authorization_required), t)).
  { intros f t. now rewrite (gate_no_header (reliable nse) key request f Hh). }
  repeat split.
  - rewrite (app_option_chain _ _ _ Hto). unfold try_except, get_option_chain.
    now rewrite G.
  - now exists (PStr "Authorization header is required").
  - now exists
      (PStr "Please provide Authorization header with your API key").
  - exact G.
Qed.

Lemma missing_authorization_rejected_witness :
  request_to "/option-chain"
    (Sample.option_chain_request [] [("symbol", "INFY")]) /\
  headers_get (Sample.option_chain_request [] [("symbol", "INFY")])
    "Authorization" = None /\
  exists r : Response,
    app (reliable Sample.nse) Sample.key
        (Sample.option_chain_request [] [("symbol", "INFY")]) []
    = (Ok r, []) /\ status r = 401.
Proof.
  assert (H1 : request_to "/option-chain"
                 (Sample.option_chain_request [] [("symbol", "INFY")]))
    by (split; reflexivity).
  assert (H2 : headers_get
                 (Sample.option_chain_request [] [("symbol", "INFY")])
                 "Authorization" = None) by reflexivity.
  split; [exact H1 | split; [exact H2|]].
  destruct (missing_authorization_rejected Sample.nse Sample.key _ H1 H2)
    as [r [Hr [Hs _]]].
  exists r; split; [exact Hr | exact Hs].
Defined.

(** C4.  A request to /option-chain with a valid credential and no symbol
    parameter is answered with status 400 and the fixed body
    [{"error": "Symbol parameter is required", "message": "Please provide
    a symbol as query parameter"}]; the provider is not called. *)
Theorem missing_symbol_rejected (env : option string) (key : string)
    (nse : string -> result pyval) (request : Request) :
  load_api_key env = Ok key ->
  request_to "/option-chain" request ->
  valid_credential key request ->
  args_get request "symbol" = None ->
  exists t : list event,
    app (reliable nse) key request [] =
    (Ok {| body :=
             PDict [("error", PStr "Symbol parameter is required");
                    ("message",
                     PStr "Please provide a symbol as query parameter")];
           status := 400 |}, t) /\
    fetched t = [].
Proof.
  intros Hload Hto Hcred Hsym. exists []; split; [|reflexivity].
  apply (run_without_symbol nse key request
           (load_api_key_set env key Hload) Hto Hcred).
  now left.
Qed.

Lemma missing_symbol_rejected_witness :
  load_api_key (Some Sample.key) = Ok Sample.key /\
  request_to "/option-chain" (Sample.with_key []) /\
  valid_credential Sample.key (Sample.with_key []) /\
  args_get (Sample.with_key []) "symbol" = None /\
  exists t : list event,
    app (reliable Sample.nse) Sample.key (Sample.with_key []) [] =
    (Ok {| body :=
             PDict [("error", PStr "Symbol parameter is required");
                    ("message",
                     PStr "Please provide a symbol as query parameter")];
           status := 400 |}, t) /\
    fetched t = [].
Proof.
  assert (H1 : load_api_key (Some Sample.key) = Ok Sample.key)
    by reflexivity.
  assert (H2 : request_to "/option-chain" (Sample.with_key []))
    by (split; reflexivity).
  assert (H3 : valid_credential Sample.key (Sample.with_key []))
    by (exists "Bearer nse-key-1"; split; [reflexivity | left; reflexivity]).
  assert (H4 : args_get (Sample.with_key []) "symbol" = None)
    by reflexivity.
  split; [exact H1 | split; [exact H2 | split; [exact H3 | split;
    [exact H4|]]]].
  exact (missing_symbol_rejected _ _ Sample.nse _ H1 H2 H3 H4).
Defined.

(** C8.  A request to /health is answered with status 200 and the fixed
    "healthy" body, whatever headers it carries and whatever the secret. *)
Theorem health_always_ok (nse : string -> result pyval) (key : string)
    (request : Request) :
  request_to "/health" request ->
  app (reliable nse) key request [] =
  (Ok {| body := PDict [("status", PStr "healthy");
                        ("message", PStr "NSE Option Chain API is running")];
         status := 200 |}, []).
Proof.
  intros [Hm Hp]. unfold app. rewrite Hp, Hm. reflexivity.
Qed.

Lemma health_always_ok_witness :
  request_to "/health" Sample.health_request /\
  app (reliable Sample.nse) Sample.key Sample.health_request [] =
  (Ok {| body := healthy; status := 200 |}, []).
Proof.
  assert (H1 : request_to "/health" Sample.health_request)
    by (split; reflexivity).
  split; [exact H1|].
  exact (health_always_ok Sample.nse Sample.key _ H1).
Defined.

(** C10.  A request to /option-chain with a valid credential whose symbol
    parameter is present but empty gets the 400 "Symbol parameter is
    required" response, the very response of a request without the
    parameter, and the provider is not called. *)
Theorem empty_symbol_rejected (env : option string) (key : string)
    (nse : string -> result pyval) (request : Request) :
  load_api_key env = Ok key ->
  request_to "/option-chain" request ->
  valid_credential key request ->
  args_get request "symbol" = Some "" ->
  (exists t : list event,
     app (reliable nse) key request [] =
     (Ok {| body := error_body "Symbol parameter is required"
                      "Please provide a symbol as query parameter";
            status := 400 |}, t) /\
     fetched t = []) /\
  (forall absent : Request,
     request_to "/option-chain" absent ->
     valid_credential key absent ->
     args_get absent "symbol" = None ->
     app (reliable nse) key request [] = app (reliable nse) key absent []).
Proof.
  intros Hload Hto Hcred Hsym.
  pose proof (load_api_key_set env key Hload) as Hk.
  assert (E : app (reliable nse) key request [] =
              (Ok {| body := symbol_required; status := 400 |}, []))
    by (apply (run_without_symbol nse key request Hk Hto Hcred); now right).
  split.
  - exists []; split; [exact E | reflexivity].
  - intros absent Hto' Hcred' Hsym'. rewrite E. symmetry.
    apply (run_without_symbol nse key absent Hk Hto' Hcred'). now left.
Qed.

Lemma empty_symbol_rejected_witness :
  load_api_key (Some Sample.key) = Ok Sample.key /\
  request_to "/option-chain" (Sample.with_key [("symbol", "")]) /\
  valid_credential Sample.key (Sample.with_key [("symbol", "")]) /\
  args_get (Sample.with_key [("symbol", "")]) "symbol" = Some "" /\
  app (reliable Sample.nse) Sample.key (Sample.with_key [("symbol", "")]) []
  = app (reliable Sample.nse) Sample.key (Sample.with_key []) [].
Proof.
  assert (H1 : load_api_key (Some Sample.key) = Ok Sample.key)
    by reflexivity.
  assert (H2 : forall args, request_to "/option-chain" (Sample.with_key args))
    by (intros args; split; reflexivity).
  assert (H3 : forall args, valid_credential Sample.key (Sample.with_key args))
    by (intros args; exists "Bearer nse-key-1"; split;
        [reflexivity | left; reflexivity]).
  assert (H4 : args_get (Sample.with_key [("symbol", "")]) "symbol" = Some "")
    by reflexivity.
  split; [exact H1 | split; [exact (H2 _) | split; [exact (H3 _) | split;
    [exact H4|]]]].
  apply (proj2 (empty_symbol_rejected _ _ Sample.nse _ H1 (H2 _) (H3 _) H4)).
  - exact (H2 _).
  - exact (H3 _).
  - reflexivity.
Defined.

(** The run of an authorized request whose provider call is on record. *)
Lemma recorded_call (key : string) (nse : string -> result pyval)
    (request : Request) (symbol called : string) (outcome : result pyval) :
  key <> "" ->
  request_to "/option-chain" request ->
  valid_credential key request ->
  args_get request "symbol" = Some symbol ->
  In (Fetched called outcome) (snd (app (reliable nse) key request [])) ->
  app (reliable nse) key request [] = symbol_run nse (Str.upper symbol) /\
  called = Str.upper symbol /\ outcome = nse (Str.upper symbol).
Proof.
  intros Hk Hto Hcred Hsym Hin.
  destruct (string_dec symbol "") as [->|Hs].
  - rewrite (run_without_symbol nse key request Hk Hto Hcred
               (or_intror Hsym)) in Hin. destruct Hin.
  - rewrite (run_with_symbol nse key request Hk Hto Hcred symbol Hsym Hs)
      in Hin |- *.
    split; [reflexivity | exact (symbol_run_outcome _ _ _ _ Hin)].
Qed.

(** C2 (amended).  For a request to /option-chain with a valid credential
    and a symbol parameter, if the provider call returns a truthy payload
    and [jsonify] serialises the success body built from it, the response
    has status 200 and the body
    [{"success": true, "symbol": <symbol uppercased>, "data": <payload>}],
    the payload being the provider's, unchanged.  This holds on every
    platform. *)
Theorem payload_returned_verbatim (pf : Platform) (env : option string)
    (key : string) (request : Request) (symbol called : string)
    (data : pyval) :
  load_api_key env = Ok key ->
  request_to "/option-chain" request ->
  valid_credential key request ->
  args_get request "symbol" = Some symbol ->
  In (Fetched called (Ok data)) (snd (app pf key request [])) ->
  truthy data = true ->
  jsonify_fault pf
    (PDict [("success", PBool true);
            ("symbol", PStr (Str.upper symbol));
            ("data", data)]) = None ->
  fst (app pf key request []) =
  Ok {| body := PDict [("success", PBool true);
                       ("symbol", PStr (Str.upper symbol));
                       ("data", data)];
        status := 200 |}.
Proof.
  intros Hload Hto [header [Hh Hacc]] Hsym.
  rewrite (app_option_chain pf key request Hto). unfold get_option_chain.
  rewrite (gate_open pf key (load_api_key_set env key Hload) request _
             header Hh Hacc).
  run_option_chain. rewrite Hsym.
  destruct symbol as [|c s]; split_run; intros Hin Ht Hj; close_in;
    unfold option_chain_found in *; cbn in *; congruence.
Qed.

Lemma payload_returned_verbatim_witness :
  load_api_key (Some Sample.key) = Ok Sample.key /\
  request_to "/option-chain" (Sample.with_key [("symbol", "infy")]) /\
  valid_credential Sample.key (Sample.with_key [("symbol", "infy")]) /\
  args_get (Sample.with_key [("symbol", "infy")]) "symbol" = Some "infy" /\
  In (Fetched "INFY" (Ok Sample.payload))
     (snd (app (reliable Sample.nse) Sample.key
             (Sample.with_key [("symbol", "infy")]) [])) /\
  truthy Sample.payload = true /\
  jsonify_fault (reliable Sample.nse)
    (PDict [("success", PBool true); ("symbol", PStr "INFY");
            ("data", Sample.payload)]) = None /\
  fst (app (reliable Sample.nse) Sample.key
         (Sample.with_key [("symbol", "infy")]) []) =
  Ok {| body := PDict [("success", PBool true); ("symbol", PStr "INFY");
                       ("data", Sample.payload)];
        status := 200 |}.
Proof.
  assert (H1 : load_api_key (Some Sample.key) = Ok Sample.key)
    by reflexivity.
  assert (H2 : request_to "/option-chain"
                 (Sample.with_key [("symbol", "infy")]))
    by (split; reflexivity).
  assert (H3 : valid_credential Sample.key
                 (Sample.with_key [("symbol", "infy")]))
    by (exists "Bearer nse-key-1"; split; [reflexivity | left; reflexivity]).
  assert (H4 : args_get (Sample.with_key [("symbol", "infy")]) "symbol"
               = Some "infy") by reflexivity.
  assert (H5 : In (Fetched "INFY" (Ok Sample.payload))
                 (snd (app (reliable Sample.nse) Sample.key
                         (Sample.with_key [("symbol", "infy")]) [])))
    by (right; left; reflexivity).
  assert (H6 : truthy Sample.payload = true) by reflexivity.
  assert (H7 : jsonify_fault (reliable Sample.nse)
                 (PDict [("success", PBool true); ("symbol", PStr "INFY");
                         ("data", Sample.payload)]) = None)
    by reflexivity.
  split; [exact H1 | split; [exact H2 | split; [exact H3 | split;
    [exact H4 | split; [exact H5 | split; [exact H6 | split;
    [exact H7|]]]]]]].
  exact (payload_returned_verbatim (reliable Sample.nse) _ _ _ "infy" _ _
           H1 H2 H3 H4 H5 H6 H7).
Defined.

(** C2, as stated, fails: the provider call returns a truthy payload, but
    [jsonify] refuses the success body; the refusal is caught by the
    [except] clause of the provider block and the response is 500. *)
Lemma truthy_payload_not_serialised :
  valid_credential Sample.key (Sample.with_key [("symbol", "infy")]) /\
  args_get (Sample.with_key [("symbol", "infy")]) "symbol" = Some "infy" /\
  In (Fetched "INFY" (Ok Sample.payload))
     (snd (app Sample.unserializable Sample.key
             (Sample.with_key [("symbol", "infy")]) [])) /\
  truthy Sample.payload = true /\
  fst (app Sample.unserializable Sample.key
         (Sample.with_key [("symbol", "infy")]) []) =
  Ok {| body :=
          PDict [("error", PStr "NSE API error");
                 ("message",
                  PStr "Failed to fetch data from NSE: Object is not JSON serializable")];
        status := 500 |}.
Proof.
  split.
  - exists "Bearer nse-key-1"; split; [reflexivity | left; reflexivity].
  - split; [reflexivity|]. split; [right; left; reflexivity|].
    split; reflexivity.
Qed.

(** C6.  For a request to /option-chain with a valid credential and a
    symbol parameter, if the provider call returns a falsy payload, the
    response has status 404 and an error body whose message names the
    (uppercased) symbol. *)
Theorem empty_payload_not_found (env : option string) (key : string)
    (nse : string -> result pyval) (request : Request)
    (symbol called : string) (data : pyval) :
  load_api_key env = Ok key ->
  request_to "/option-chain" request ->
  valid_credential key request ->
  args_get request "symbol" = Some symbol ->
  In (Fetched called (Ok data)) (snd (app (reliable nse) key request [])) ->
  truthy data = false ->
  exists (r : Response) (message : string),
    fst (app (reliable nse) key request []) = Ok r /\
    status r = 404 /\
    has_key (body r) "error" /\
    dict_get (body r) "message" = Some (PStr message) /\
    Str.contains message (Str.upper symbol).
Proof.
  intros Hload Hto Hcred Hsym Hin Hdata.
  destruct (recorded_call key nse request symbol called (Ok data)
              (load_api_key_set env key Hload) Hto Hcred Hsym Hin)
    as [Hrun [_ Hout]].
  exists {| body := no_data_found (Str.upper symbol); status := 404 |},
    ("No option chain data found for symbol: " ++ Str.upper symbol).
  repeat split.
  - rewrite Hrun. unfold symbol_run. rewrite <- Hout, Hdata. reflexivity.
  - now exists (PStr "No data found").
  - apply StrFacts.contains_suffix.
Qed.

Lemma empty_payload_not_found_witness :
  load_api_key (Some Sample.key) = Ok Sample.key /\
  request_to "/option-chain" (Sample.with_key [("symbol", "FAKE")]) /\
  valid_credential Sample.key (Sample.with_key [("symbol", "FAKE")]) /\
  args_get (Sample.with_key [("symbol", "FAKE")]) "symbol" = Some "FAKE" /\
  In (Fetched "FAKE" (Ok PNone))
     (snd (app (reliable Sample.nse) Sample.key
             (Sample.with_key [("symbol", "FAKE")]) [])) /\
  truthy PNone = false /\
  exists (r : Response) (message : string),
    fst (app (reliable Sample.nse) Sample.key
           (Sample.with_key [("symbol", "FAKE")]) []) = Ok r /\
    status r = 404 /\
    has_key (body r) "error" /\
    dict_get (body r) "message" = Some (PStr message) /\
    Str.contains message (Str.upper "FAKE").
Proof.
  assert (H1 : load_api_key (Some Sample.key) = Ok Sample.key)
    by reflexivity.
  assert (H2 : request_to "/option-chain"
                 (Sample.with_key [("symbol", "FAKE")]))
    by (split; reflexivity).
  assert (H3 : valid_credential Sample.key
                 (Sample.with_key [("symbol", "FAKE")]))
    by (exists "Bearer nse-key-1"; split; [reflexivity | left; reflexivity]).
  assert (H4 : args_get (Sample.with_key [("symbol", "FAKE")]) "symbol"
               = Some "FAKE") by reflexivity.
  assert (H5 : In (Fetched "FAKE" (Ok PNone))
                 (snd (app (reliable Sample.nse) Sample.key
                         (Sample.with_key [("symbol", "FAKE")]) [])))
    by (right; left; reflexivity).
  assert (H6 : truthy PNone = false) by reflexivity.
  split; [exact H1 | split; [exact H2 | split; [exact H3 | split;
    [exact H4 | split; [exact H5 | split; [exact H6|]]]]]].
  exact (empty_payload_not_found _ _ Sample.nse _ _ _ _ H1 H2 H3 H4 H5 H6).
Defined.

(** C7.  For a request to /option-chain with a valid credential and a
    symbol parameter, if the provider call raises an error, the response
    has status 500 and the "message" of its body contains the error's
    message. *)
Theorem provider_error_reported (env : option string) (key : string)
    (nse : string -> result pyval) (request : Request)
    (symbol called : string) (nse_error : exn) :
  load_api_key env = Ok key ->
  request_to "/option-chain" request ->
  valid_credential key request ->
  args_get request "symbol" = Some symbol ->
  In (Fetched called (Raise nse_error))
     (snd (app (reliable nse) key request [])) ->
  exists (r : Response) (message : string),
    fst (app (reliable nse) key request []) = Ok r /\
    status r = 500 /\
    dict_get (body r) "message" = Some (PStr message) /\
    Str.contains message (str nse_error).
Proof.
  intros Hload Hto Hcred Hsym Hin.
  destruct (recorded_call key nse request symbol called (Raise nse_error)
              (load_api_key_set env key Hload) Hto Hcred Hsym Hin)
    as [Hrun [_ Hout]].
  exists {| body := nse_api_error nse_error; status := 500 |},
    ("Failed to fetch data from NSE: " ++ str nse_error).
  repeat split.
  - rewrite Hrun. unfold symbol_run. rewrite <- Hout. reflexivity.
  - apply StrFacts.contains_suffix.
Qed.

Lemma provider_error_reported_witness :
  load_api_key (Some Sample.key) = Ok Sample.key /\
  request_to "/option-chain" (Sample.with_key [("symbol", "slow")]) /\
  valid_credential Sample.key (Sample.with_key [("symbol", "slow")]) /\
  args_get (Sample.with_key [("symbol", "slow")]) "symbol" = Some "slow" /\
  In (Fetched "SLOW" (Raise (PyExc "TimeoutError" "timeout")))
     (snd (app (reliable Sample.nse) Sample.key
             (Sample.with_key [("symbol", "slow")]) [])) /\
  exists (r : Response) (message : string),
    fst (app (reliable Sample.nse) Sample.key
           (Sample.with_key [("symbol", "slow")]) []) = Ok r /\
    status r = 500 /\
    dict_get (body r) "message" = Some (PStr message) /\
    Str.contains message "timeout".
Proof.
  assert (H1 : load_api_key (Some Sample.key) = Ok Sample.key)
    by reflexivity.
  assert (H2 : request_to "/option-chain"
                 (Sample.with_key [("symbol", "slow")]))
    by (split; reflexivity).
  assert (H3 : valid_credential Sample.key
                 (Sample.with_key [("symbol", "slow")]))
    by (exists "Bearer nse-key-1"; split; [reflexivity | left; reflexivity]).
  assert (H4 : args_get (Sample.with_key [("symbol", "slow")]) "symbol"
               = Some "slow") by reflexivity.
  assert (H5 : In (Fetched "SLOW" (Raise (PyExc "TimeoutError" "timeout")))
                 (snd (app (reliable Sample.nse) Sample.key
                         (Sample.with_key [("symbol", "slow")]) [])))
    by (right; left; reflexivity).
  split; [exact H1 | split; [exact H2 | split; [exact H3 | split;
    [exact H4 | split; [exact H5|]]]]].
  exact (provider_error_reported _ _ Sample.nse _ _ _ _ H1 H2 H3 H4 H5).
Defined.

(** C5 (amended).  For every symbol that is not empty and comes with a
    valid credential, the provider is called once, with the uppercased
    symbol, which holds no lowercase letter; when the provider returns a
    payload and the response is serialised, the response carries that
    uppercased symbol (as the "symbol" of the 200 body, inside the message
    of the 404 body).  Uppercasing is idempotent, so a symbol that is
    already uppercase reaches the provider unchanged.  This holds on every
    platform where logging returns and [jsonify] refuses at most a body
    that carries a payload. *)
Theorem symbol_uppercased (pf : Platform) (env : option string)
    (key : string) (request : Request) (symbol : string) :
  payload_faults_only pf ->
  load_api_key env = Ok key ->
  request_to "/option-chain" request ->
  valid_credential key request ->
  args_get request "symbol" = Some symbol ->
  symbol <> "" ->
  fetched (snd (app pf key request [])) = [Str.upper symbol] /\
  (forall c : ascii,
     In c (list_ascii_of_string (Str.upper symbol)) -> is_lower c = false) /\
  (forall data : pyval,
     nse_option_chain pf (Str.upper symbol) = Ok data ->
     truthy data = true ->
     jsonify_fault pf
       (PDict [("success", PBool true);
               ("symbol", PStr (Str.upper symbol));
               ("data", data)]) = None ->
     exists r : Response,
       fst (app pf key request []) = Ok r /\
       status r = 200 /\
       dict_get (body r) "symbol" = Some (PStr (Str.upper symbol))) /\
  (forall data : pyval,
     nse_option_chain pf (Str.upper symbol) = Ok data ->
     truthy data = false ->
     exists (r : Response) (message : string),
       fst (app pf key request []) = Ok r /\
       status r = 404 /\
       dict_get (body r) "message" = Some (PStr message) /\
       Str.contains message (Str.upper symbol)) /\
  (forall s : string, Str.upper (Str.upper s) = Str.upper s) /\
  (Str.upper symbol = symbol ->
   fetched (snd (app pf key request [])) = [symbol]).
Proof.
  intros Hpf Hload Hto Hcred Hsym Hs.
  rewrite (run_with_symbol_any pf key request symbol Hpf
             (load_api_key_set env key Hload) Hto Hcred Hsym Hs).
  assert (Hcalls : fetched (snd (payload_run pf (Str.upper symbol)))
                   = [Str.upper symbol]).
  { unfold payload_run.
    destruct (nse_option_chain pf (Str.upper symbol)) as [data|e|e];
      [|reflexivity..].
    destruct (truthy data); [|reflexivity].
    destruct (jsonify_fault pf _); reflexivity. }
  split; [exact Hcalls|].
  split; [exact (upper_no_lower symbol)|].
  split; [|split; [|split]].
  - intros data Hdata Ht Hj. unfold payload_run.
    rewrite Hdata, Ht. unfold option_chain_found. rewrite Hj.
    eexists; repeat split.
  - intros data Hdata Ht. unfold payload_run. rewrite Hdata, Ht.
    eexists _, _; repeat split. apply StrFacts.contains_suffix.
  - exact StrFacts.upper_idem.
  - intros E. rewrite Hcalls. now rewrite E.
Qed.

Lemma symbol_uppercased_witness :
  payload_faults_only Sample.unserializable /\
  load_api_key (Some Sample.key) = Ok Sample.key /\
  request_to "/option-chain" (Sample.with_key [("symbol", "infy")]) /\
  valid_credential Sample.key (Sample.with_key [("symbol", "infy")]) /\
  args_get (Sample.with_key [("symbol", "infy")]) "symbol" = Some "infy" /\
  "infy" <> "" /\
  fetched (snd (app Sample.unserializable Sample.key
                  (Sample.with_key [("symbol", "infy")]) []))
  = ["INFY"].
Proof.
  assert (H0 : payload_faults_only Sample.unserializable).
  { split; [reflexivity|]. intros obj Hobj. simpl. now rewrite Hobj. }
  assert (H1 : load_api_key (Some Sample.key) = Ok Sample.key)
    by reflexivity.
  assert (H2 : request_to "/option-chain"
                 (Sample.with_key [("symbol", "infy")]))
    by (split; reflexivity).
  assert (H3 : valid_credential Sample.key
                 (Sample.with_key [("symbol", "infy")]))
    by (exists "Bearer nse-key-1"; split; [reflexivity | left; reflexivity]).
  assert (H4 : args_get (Sample.with_key [("symbol", "infy")]) "symbol"
               = Some "infy") by reflexivity.
  assert (H5 : "infy" <> "") by discriminate.
  split; [exact H0 | split; [exact H1 | split; [exact H2 | split;
    [exact H3 | split; [exact H4 | split; [exact H5|]]]]]].
  exact (proj1 (symbol_uppercased Sample.unserializable _ _ _ _
                  H0 H1 H2 H3 H4 H5)).
Defined.

(** C5, as stated, fails three times: an empty symbol sent with a valid
    credential never reaches the provider; when the provider raises, the
    response says nothing of the symbol; and when [jsonify] refuses the
    payload the provider returned, the response is the provider-error
    body, again without the symbol. *)
Lemma symbol_not_always_forwarded_nor_echoed :
  valid_credential Sample.key (Sample.with_key [("symbol", "")]) /\
  args_get (Sample.with_key [("symbol", "")]) "symbol" = Some "" /\
  app (reliable Sample.nse) Sample.key (Sample.with_key [("symbol", "")]) []
  = (Ok {| body := symbol_required; status := 400 |}, []) /\
  fetched (snd (app (reliable Sample.nse) Sample.key
                  (Sample.with_key [("symbol", "")]) [])) = [] /\
  args_get (Sample.with_key [("symbol", "slow")]) "symbol" = Some "slow" /\
  app (reliable Sample.nse) Sample.key
      (Sample.with_key [("symbol", "slow")]) []
  = (Ok {| body := PDict [("error", PStr "NSE API error");
                          ("message",
                           PStr "Failed to fetch data from NSE: timeout")];
           status := 500 |},
     [Logged INFO "Fetching option chain for symbol: SLOW";
      Fetched "SLOW" (Raise (PyExc "TimeoutError" "timeout"));
      Logged ERROR "NSE API error for symbol SLOW: timeout"]) /\
  Sample.nse "INFY" = Ok Sample.payload /\
  truthy Sample.payload = true /\
  fst (app Sample.unserializable Sample.key
         (Sample.with_key [("symbol", "infy")]) [])
  = Ok {| body :=
            PDict [("error", PStr "NSE API error");
                   ("message",
                    PStr "Failed to fetch data from NSE: Object is not JSON serializable")];
          status := 500 |}.
Proof.
  split.
  - exists "Bearer nse-key-1"; split; [reflexivity | left; reflexivity].
  - repeat split.
Qed.

(** C9.  The handler at a failure outside the provider call: the provider
    has returned a truthy payload (the call is on record with it) and
    [jsonify] then refuses the success body.  The refusal is raised inside
    the inner [try], so the clause [except Exception as nse_error] answers
    it: status 500 with the "NSE API error" body, whose message carries
    the error's text, and not the generic "Internal server error" body. *)
Theorem failure_after_fetch_leaks_text :
  app Sample.unserializable Sample.key
      (Sample.with_key [("symbol", "infy")]) []
  = (Ok {| body :=
             PDict [("error", PStr "NSE API error");
                    ("message",
                     PStr "Failed to fetch data from NSE: Object is not JSON serializable")];
           status := 500 |},
     [Logged INFO "Fetching option chain for symbol: INFY";
      Fetched "INFY" (Ok Sample.payload);
      Logged ERROR
        "NSE API error for symbol INFY: Object is not JSON serializable"]) /\
  body_of (fst (app Sample.unserializable Sample.key
                  (Sample.with_key [("symbol", "infy")]) []))
  <> Some (PDict [("error", PStr "Internal server error");
                  ("message", PStr "An unexpected error occurred")]).
Proof.
  split; [reflexivity | discriminate].
Qed.

(** ** Start-up, routing and what every run keeps *)

(** X1.  Start-up keeps the value of API_KEY exactly when the variable is
    set and not empty, and keeps it unchanged; when the variable is unset
    or empty, start-up raises ValueError with the message
    "API_KEY environment variable is required". *)
Theorem api_key_required (env : option string) :
  (forall key : string,
     load_api_key env = Ok key <-> (env = Some key /\ key <> "")) /\
  (env = None \/ env = Some "" ->
   load_api_key env
   = Raise (PyExc "ValueError" "API_KEY environment variable is required")).
Proof.
  split; [intros key; apply load_api_key_spec|].
  intros [-> | ->]; reflexivity.
Qed.

(** X3.  A request to a registered rule with a method other than GET is
    answered by the 405 handler: status 405 and the "Method not allowed"
    body; the view does not run and the provider is not called, even when
    the request carries a valid credential. *)
Theorem wrong_method_not_allowed (nse : string -> result pyval) (key : string)
    (request : Request) :
  registered (req_path request) ->
  req_method request <> GET ->
  app (reliable nse) key request [] =
  (Ok {| body := error_body "Method not allowed"
                   "The request method is not allowed for this endpoint";
         status := 405 |}, []).
Proof.
  intros H Hm. now rewrite (app_wrong_method _ key request H Hm).
Qed.

Lemma wrong_method_not_allowed_witness :
  registered (req_path Probe.post_option_chain) /\
  req_method Probe.post_option_chain <> GET /\
  app (reliable Sample.nse) Sample.key Probe.post_option_chain [] =
  (Ok {| body := error_body "Method not allowed"
                   "The request method is not allowed for this endpoint";
         status := 405 |}, []).
Proof.
  assert (H1 : registered (req_path Probe.post_option_chain))
    by (right; left; reflexivity).
  assert (H2 : req_method Probe.post_option_chain <> GET) by discriminate.
  split; [exact H1 | split; [exact H2|]].
  exact (wrong_method_not_allowed Sample.nse Sample.key _ H1 H2).
Defined.

(** X4.  A GET request to "/" is answered with status 200 and the
    description of the API (name, version 1.0.0, the two endpoints, the
    authentication note), with or without an Authorization header. *)
Theorem root_describes_api (nse : string -> result pyval) (key : string)
    (request : Request) :
  request_to "/" request ->
  exists info : pyval,
    app (reliable nse) key request [] = (Ok {| body := info; status := 200 |}, [])
    /\ dict_get info "message" = Some (PStr "NSE Option Chain API")
    /\ dict_get info "version" = Some (PStr "1.0.0")
    /\ dict_get info "endpoints"
       = Some (PDict [("option_chain", PStr "/option-chain?symbol=<SYMBOL>");
                      ("health", PStr "/health")])
    /\ dict_get info "authentication"
       = Some (PStr "Required - Pass API key in Authorization header").
Proof.
  intros H. exists api_information.
  rewrite (app_root _ key request H). repeat split.
Qed.

Lemma root_describes_api_witness :
  request_to "/" Probe.root_request /\
  exists info : pyval,
    app (reliable Sample.nse) Sample.key Probe.root_request []
    = (Ok {| body := info; status := 200 |}, []) /\
    dict_get info "version" = Some (PStr "1.0.0").
Proof.
  assert (H : request_to "/" Probe.root_request) by (split; reflexivity).
  split; [exact H|].
  destruct (root_describes_api Sample.nse Sample.key _ H)
    as [info [H1 [_ [H2 _]]]].
  exists info; split; [exact H1 | exact H2].
Defined.

(** X5.  On every platform, whatever fails: if a request made the
    application call the provider, the request was a GET to /option-chain
    with a valid credential and a symbol that is not empty, the provider
    was called with that symbol uppercased, and the recorded outcome is
    the provider's. *)
Theorem provider_needs_credential (pf : Platform) (env : option string)
    (key : string) (request : Request) (called : string)
    (outcome : result pyval) :
  load_api_key env = Ok key ->
  In (Fetched called outcome) (snd (app pf key request [])) ->
  request_to "/option-chain" request /\
  valid_credential key request /\
  exists symbol : string,
    args_get request "symbol" = Some symbol /\ symbol <> "" /\
    called = Str.upper symbol /\
    outcome = nse_option_chain pf called.
Proof.
  intros Hload Hin.
  destruct (app_calls pf key request (load_api_key_set env key Hload))
    as [E | [Hto [Hv [symbol [H1 [H2 H3]]]]]].
  - apply in_fetched in Hin. rewrite E in Hin. destruct Hin.
  - split; [exact Hto | split; [exact Hv|]].
    exists symbol. destruct (H3 _ _ Hin) as [-> ->]. now repeat split.
Qed.

Lemma provider_needs_credential_witness :
  load_api_key (Some Sample.key) = Ok Sample.key /\
  In (Fetched "INFY" (Ok Sample.payload))
     (snd (app Sample.unserializable Sample.key
             (Sample.with_key [("symbol", "infy")]) [])) /\
  valid_credential Sample.key (Sample.with_key [("symbol", "infy")]).
Proof.
  assert (H1 : load_api_key (Some Sample.key) = Ok Sample.key)
    by reflexivity.
  assert (H2 : In (Fetched "INFY" (Ok Sample.payload))
                 (snd (app Sample.unserializable Sample.key
                         (Sample.with_key [("symbol", "infy")]) [])))
    by (right; left; reflexivity).
  split; [exact H1 | split; [exact H2|]].
  exact (proj1 (proj2 (provider_needs_credential _ _ _ _ _ _ H1 H2))).
Defined.

(** X6.  A request makes the application call the provider at most once,
    on every platform and whatever fails: there is no retry. *)
Theorem at_most_one_fetch (pf : Platform) (key : string) (request : Request) :
  (List.length (fetched (snd (app pf key request []))) <= 1)%nat.
Proof.
  destruct (app_calls_any pf key request) as [E | [symbol [_ [_ E]]]];
    rewrite E; simpl; lia.
Qed.

(** X7.  Every symbol the provider is called with is not empty and is
    its own uppercase form, for every secret and on every platform. *)
Theorem provider_sees_normalized_symbol (pf : Platform) (key : string)
    (request : Request) (called : string) (outcome : result pyval) :
  In (Fetched called outcome) (snd (app pf key request [])) ->
  called <> "" /\ Str.upper called = called.
Proof.
  intros Hin. apply in_fetched in Hin.
  destruct (app_calls_any pf key request) as [E | [symbol [_ [Hs E]]]];
    rewrite E in Hin; [destruct Hin|].
  destruct Hin as [<- | []].
  split; [now apply StrFacts.upper_nonempty | apply StrFacts.upper_idem].
Qed.

Lemma provider_sees_normalized_symbol_witness :
  In (Fetched "INFY" (Ok Sample.payload))
     (snd (app (reliable Sample.nse) Sample.key
             (Sample.with_key [("symbol", "infy")]) [])) /\
  "INFY" <> "" /\ Str.upper "INFY" = "INFY".
Proof.
  assert (H : In (Fetched "INFY" (Ok Sample.payload))
                (snd (app (reliable Sample.nse) Sample.key
                        (Sample.with_key [("symbol", "infy")]) [])))
    by (right; left; reflexivity).
  split; [exact H|].
  exact (provider_sees_normalized_symbol _ _ _ _ _ H).
Defined.

(** X8.  With logging returning and [jsonify] refusing at most a body that
    carries a payload, every request to a registered rule is answered
    unless the provider ends with an exit ([SystemExit] and the like),
    which goes through: no [Exception] leaves the application, the status
    is one of 200, 400, 401, 404, 405 and 500, every response whose status
    is not 200 has the body [{"error": ..., "message": ...}], and neither
    the handler's generic 500 body nor the registered 500 handler is
    used. *)
Theorem always_answers (pf : Platform) (key : string) (request : Request) :
  payload_faults_only pf ->
  registered (req_path request) ->
  (exists (r : Response) (t : list event),
     app pf key request [] = (Ok r, t) /\
     In (status r) [200; 400; 401; 404; 405; 500] /\
     (status r <> 200 ->
      exists error message : string,
        body r = PDict [("error", PStr error); ("message", PStr message)]) /\
     dict_get (body r) "error" <> Some (PStr "Internal server error")) \/
  (exists (e : exn) (symbol : string) (t : list event),
     app pf key request [] = (Exit e, t) /\
     nse_option_chain pf symbol = Exit e).
Proof.
  intros Hpf Hreg.
  destruct (app_cases pf key request)
    as [[Hno _] | [[_ [_ E]] | [[_ E] | [[_ E] | [_ E]]]]];
    [contradiction | | | |]; rewrite E; clear E.
  - unfold method_not_allowed, bind, jsonify.
    split_run; no_fault Hpf; left; answer_plain.
  - unfold try_except, health_check, bind, jsonify.
    split_run; no_fault Hpf; left; answer_plain.
  - unfold try_except, root, bind, jsonify.
    split_run; no_fault Hpf; left; answer_plain.
  - unfold get_option_chain.
    destruct (gate_either pf key request) as [G | [why [Hwhy G]]];
      rewrite G; clear G.
    + run_option_chain.
      destruct (args_get request "symbol") as [[|c s]|];
        split_run; no_fault Hpf;
        first [left; answer_plain
              | right; eexists _, _, _; split; [reflexivity | eassumption]].
    + unfold try_except, refuse, bind, jsonify.
      destruct Hwhy as [-> | ->]; split_run; no_fault Hpf;
        left; answer_plain.
Qed.

Lemma always_answers_witness :
  payload_faults_only Sample.unserializable /\
  registered (req_path (Sample.with_key [("symbol", "infy")])) /\
  ((exists (r : Response) (t : list event),
      app Sample.unserializable Sample.key
          (Sample.with_key [("symbol", "infy")]) [] = (Ok r, t) /\
      In (status r) [200; 400; 401; 404; 405; 500] /\
      (status r <> 200 ->
       exists error message : string,
         body r = PDict [("error", PStr error); ("message", PStr message)]) /\
      dict_get (body r) "error" <> Some (PStr "Internal server error")) \/
   (exists (e : exn) (symbol : string) (t : list event),
      app Sample.unserializable Sample.key
          (Sample.with_key [("symbol", "infy")]) [] = (Exit e, t) /\
      nse_option_chain Sample.unserializable symbol = Exit e)).
Proof.
  assert (H0 : payload_faults_only Sample.unserializable).
  { split; [reflexivity|]. intros obj Hobj. simpl. now rewrite Hobj. }
  assert (H1 : registered (req_path (Sample.with_key [("symbol", "infy")])))
    by (right; left; reflexivity).
  split; [exact H0 | split; [exact H1|]].
  exact (always_answers Sample.unserializable Sample.key _ H0 H1).
Defined.

(** X9.  The two 401 answers of /option-chain: a missing or empty
    Authorization header gets "Authorization header is required"; a
    header that is not empty and does not carry the secret gets
    "Invalid API key". *)
Theorem unauthorized_message (nse : string -> result pyval) (key : string)
    (request : Request) :
  request_to "/option-chain" request ->
  (headers_get request "Authorization" = None \/
   headers_get request "Authorization" = Some "" ->
   app (reliable nse) key request [] =
   (Ok {| body := error_body "Authorization header is required"
                    "Please provide Authorization header with your API key";
          status := 401 |}, [])) /\
  (forall header : string,
     headers_get request "Authorization" = Some header ->
     header <> "" ->
     ~ accepted key header ->
     app (reliable nse) key request [] =
     (Ok {| body := error_body "Invalid API key"
                      "The provided API key is not valid";
            status := 401 |}, [])).
Proof.
  intros Hto. rewrite (app_option_chain _ key request Hto).
  unfold get_option_chain, require_api_key, try_except. split.
  - intros [H | H]; rewrite H; reflexivity.
  - intros header H Hne Hno. rewrite H, (truthy_str header Hne). cbn [negb].
    destruct (Str.startswith header "Bearer ") eqn:Hpre.
    + destruct (String.eqb_spec (Str.drop 7 header) key) as [E|_];
        [|reflexivity].
      exfalso; apply Hno; left.
      rewrite (StrFacts.startswith_split _ _ Hpre). simpl String.length.
      now rewrite E.
    + destruct (String.eqb_spec header key) as [E|_]; [|reflexivity].
      exfalso; apply Hno; right. subst header. now split.
Qed.

Lemma unauthorized_message_witness :
  request_to "/option-chain" Probe.wrong_key /\
  app (reliable Sample.nse) Sample.key Probe.wrong_key [] =
  (Ok {| body := error_body "Invalid API key"
                   "The provided API key is not valid";
         status := 401 |}, []).
Proof.
  assert (H : request_to "/option-chain" Probe.wrong_key)
    by (split; reflexivity).
  split; [exact H|].
  apply (proj2 (unauthorized_message Sample.nse Sample.key _ H)
           "Bearer WRONGKEY").
  - reflexivity.
  - discriminate.
  - intros [E | [E _]]; discriminate.
Defined.

(** X10.  Two authorized requests to /option-chain whose symbols have the
    same uppercase form get the same run: same response, same provider
    call, same log records. *)
Theorem symbol_case_insensitive (env : option string) (key : string)
    (nse : string -> result pyval) (one other : Request)
    (s1 s2 : string) :
  load_api_key env = Ok key ->
  request_to "/option-chain" one ->
  request_to "/option-chain" other ->
  valid_credential key one ->
  valid_credential key other ->
  args_get one "symbol" = Some s1 ->
  args_get other "symbol" = Some s2 ->
  Str.upper s1 = Str.upper s2 ->
  app (reliable nse) key one [] = app (reliable nse) key other [].
Proof.
  intros Hload Hto1 Hto2 Hv1 Hv2 H1 H2 Hup.
  pose proof (load_api_key_set env key Hload) as Hk.
  destruct (string_dec s1 "") as [E1|N1].
  - assert (E2 : s2 = "") by (apply upper_empty; now rewrite <- Hup, E1).
    subst s1 s2.
    rewrite (run_without_symbol nse key one Hk Hto1 Hv1 (or_intror H1)).
    now rewrite (run_without_symbol nse key other Hk Hto2 Hv2 (or_intror H2)).
  - assert (N2 : s2 <> "").
    { intros ->. apply N1, upper_empty. now rewrite Hup. }
    rewrite (run_with_symbol nse key one Hk Hto1 Hv1 s1 H1 N1).
    rewrite (run_with_symbol nse key other Hk Hto2 Hv2 s2 H2 N2).
    now rewrite Hup.
Qed.

Lemma symbol_case_insensitive_witness :
  load_api_key (Some Sample.key) = Ok Sample.key /\
  request_to "/option-chain" (Sample.with_key [("symbol", "infy")]) /\
  request_to "/option-chain" (Sample.with_key [("symbol", "InFy")]) /\
  valid_credential Sample.key (Sample.with_key [("symbol", "infy")]) /\
  valid_credential Sample.key (Sample.with_key [("symbol", "InFy")]) /\
  args_get (Sample.with_key [("symbol", "infy")]) "symbol" = Some "infy" /\
  args_get (Sample.with_key [("symbol", "InFy")]) "symbol" = Some "InFy" /\
  Str.upper "infy" = Str.upper "InFy" /\
  app (reliable Sample.nse) Sample.key
      (Sample.with_key [("symbol", "infy")]) []
  = app (reliable Sample.nse) Sample.key
      (Sample.with_key [("symbol", "InFy")]) [].
Proof.
  assert (H1 : load_api_key (Some Sample.key) = Ok Sample.key)
    by reflexivity.
  assert (H2 : forall args, request_to "/option-chain" (Sample.with_key args))
    by (intros args; split; reflexivity).
  assert (H3 : forall args, valid_credential Sample.key (Sample.with_key args))
    by (intros args; exists "Bearer nse-key-1"; split;
        [reflexivity | left; reflexivity]).
  assert (H4 : args_get (Sample.with_key [("symbol", "infy")]) "symbol"
               = Some "infy") by reflexivity.
  assert (H5 : args_get (Sample.with_key [("symbol", "InFy")]) "symbol"
               = Some "InFy") by reflexivity.
  assert (H6 : Str.upper "infy" = Str.upper "InFy") by reflexivity.
  repeat (split; [first [exact H1 | exact (H2 _) | exact (H3 _) | exact H4
                        | exact H5 | exact H6]|]).
  exact (symbol_case_insensitive _ _ Sample.nse _ _ _ _
           H1 (H2 _) (H2 _) (H3 _) (H3 _) H4 H5 H6).
Defined.

(** X11.  On every platform, a 200 response from /option-chain means the
    request carried a valid credential and a symbol that is not empty,
    the provider returned a truthy payload for the uppercased symbol, and
    the body is [{"success": true, "symbol": ..., "data": ...}] with that
    payload. *)
Theorem ok_only_with_payload (pf : Platform) (env : option string)
    (key : string) (request : Request) (r : Response) :
  load_api_key env = Ok key ->
  request_to "/option-chain" request ->
  fst (app pf key request []) = Ok r ->
  status r = 200 ->
  valid_credential key request /\
  exists (symbol : string) (data : pyval),
    args_get request "symbol" = Some symbol /\ symbol <> "" /\
    nse_option_chain pf (Str.upper symbol) = Ok data /\
    truthy data = true /\
    body r = PDict [("success", PBool true);
                    ("symbol", PStr (Str.upper symbol));
                    ("data", data)].
Proof.
  intros Hload Hto. rewrite (app_option_chain pf key request Hto).
  unfold get_option_chain.
  destruct (gate_by_credential pf key request
              (load_api_key_set env key Hload)) as [[Hv G] | [_ [why G]]];
    rewrite G; clear G.
  - revert r.
    unfold get_option_chain_view, get_option_chain_body,
      fetch_option_chain, internal_error, try_except, bind, ret, raise,
      jsonify, logger, option_chain.
    destruct (args_get request "symbol") as [[|c s]|];
      split_run; intros r Hr Hs; inversion Hr; subst r; try discriminate.
    all: split; [exact Hv|].
    all: eexists (String c s), _; repeat split; try eassumption;
      discriminate.
  - unfold try_except, refuse, internal_error, bind, ret, raise, jsonify.
    split_run; intros Hr Hs; inversion Hr; subst r; discriminate.
Qed.

Lemma ok_only_with_payload_witness :
  load_api_key (Some Sample.key) = Ok Sample.key /\
  request_to "/option-chain" (Sample.with_key [("symbol", "infy")]) /\
  fst (app (reliable Sample.nse) Sample.key
         (Sample.with_key [("symbol", "infy")]) [])
  = Ok {| body := option_chain_found "INFY" Sample.payload;
          status := 200 |} /\
  valid_credential Sample.key (Sample.with_key [("symbol", "infy")]).
Proof.
  assert (H1 : load_api_key (Some Sample.key) = Ok Sample.key)
    by reflexivity.
  assert (H2 : request_to "/option-chain"
                 (Sample.with_key [("symbol", "infy")]))
    by (split; reflexivity).
  assert (H3 : fst (app (reliable Sample.nse) Sample.key
                      (Sample.with_key [("symbol", "infy")]) [])
               = Ok {| body := option_chain_found "INFY" Sample.payload;
                       status := 200 |}) by reflexivity.
  split; [exact H1 | split; [exact H2 | split; [exact H3|]]].
  exact (proj1 (ok_only_with_payload _ _ _ _ _ H1 H2 H3 eq_refl)).
Defined.

(** X12.  When [jsonify] and the logger work, a 500 response has one
    cause only: an authorized request to /option-chain whose provider call
    raised.  The body is the "NSE API error" body with the error's text,
    and the error was logged with the symbol. *)
Theorem server_error_only_from_provider (env : option string) (key : string)
    (nse : string -> result pyval) (request : Request) (r : Response) :
  load_api_key env = Ok key ->
  fst (app (reliable nse) key request []) = Ok r ->
  status r = 500 ->
  request_to "/option-chain" request /\
  valid_credential key request /\
  exists (symbol : string) (nse_error : exn),
    args_get request "symbol" = Some symbol /\ symbol <> "" /\
    nse (Str.upper symbol) = Raise nse_error /\
    body r = error_body "NSE API error"
               ("Failed to fetch data from NSE: " ++ str nse_error) /\
    In (Logged ERROR ("NSE API error for symbol " ++ Str.upper symbol ++ ": "
                      ++ str nse_error))
       (snd (app (reliable nse) key request [])).
Proof.
  intros Hload.
  pose proof (load_api_key_set env key Hload) as Hk.
  destruct (app_cases (reliable nse) key request)
    as [[_ E] | [[_ [_ E]] | [[_ E] | [[_ E] | [Hto E]]]]];
    try (rewrite E; intros Hr Hs; inversion Hr; subst r; discriminate).
  destruct (gate_by_credential (reliable nse) key request Hk)
    as [[Hv G] | [_ [why G]]].
  - destruct (args_get request "symbol") as [symbol|] eqn:Hsym.
    + destruct (string_dec symbol "") as [->|Hne].
      * rewrite (run_without_symbol nse key request Hk Hto Hv
                   (or_intror Hsym)).
        intros Hr Hs; inversion Hr; subst r; discriminate.
      * rewrite (run_with_symbol nse key request Hk Hto Hv symbol Hsym Hne).
        unfold symbol_run.
        destruct (nse (Str.upper symbol)) as [data|e|e] eqn:Hnse.
        -- destruct (truthy data); intros Hr Hs; inversion Hr; subst r;
             discriminate.
        -- intros Hr _; inversion Hr; subst r.
           split; [exact Hto | split; [exact Hv|]].
           exists symbol, e. repeat split; try assumption.
           cbn [snd]. right; right; left; reflexivity.
        -- intros Hr; discriminate.
    + rewrite (run_without_symbol nse key request Hk Hto Hv
                 (or_introl Hsym)).
      intros Hr Hs; inversion Hr; subst r; discriminate.
  - rewrite E. unfold get_option_chain. rewrite G.
    intros Hr Hs; inversion Hr; subst r; discriminate.
Qed.

Lemma server_error_only_from_provider_witness :
  load_api_key (Some Sample.key) = Ok Sample.key /\
  fst (app (reliable Sample.nse) Sample.key
         (Sample.with_key [("symbol", "slow")]) [])
  = Ok {| body := nse_api_error (PyExc "TimeoutError" "timeout");
          status := 500 |} /\
  request_to "/option-chain" (Sample.with_key [("symbol", "slow")]).
Proof.
  assert (H1 : load_api_key (Some Sample.key) = Ok Sample.key)
    by reflexivity.
  assert (H2 : fst (app (reliable Sample.nse) Sample.key
                      (Sample.with_key [("symbol", "slow")]) [])
               = Ok {| body := nse_api_error (PyExc "TimeoutError" "timeout");
                       status := 500 |}) by reflexivity.
  split; [exact H1 | split; [exact H2|]].
  exact (proj1 (server_error_only_from_provider _ _ _ _ _ H1 H2 eq_refl)).
Defined.

(** X13.  On every platform, a 500 response built by [get_option_chain]
    comes after the error was logged.  For the "NSE API error" body, the
    error in the message is the one the provider raised for the request's
    uppercased symbol (or the one [jsonify] raised on the body built from
    the provider's payload), and the last record of the run is the ERROR
    record "NSE API error for symbol <that symbol>: <that error's text>".
    For the generic body, the error is the one that left the body of the
    outer [try], and the run ends with the ERROR record
    "Unexpected error: <that error's text>". *)
Theorem server_error_logged (pf : Platform) (key : string)
    (request : Request) (r : Response) :
  fst (get_option_chain pf key request []) = Ok r ->
  status r = 500 ->
  exists e : exn,
    (body r = PDict [("error", PStr "NSE API error");
                     ("message",
                      PStr ("Failed to fetch data from NSE: " ++ str e))] /\
     exists symbol : string,
       args_get request "symbol" = Some symbol /\
       (nse_option_chain pf (Str.upper symbol) = Raise e \/
        exists data : pyval,
          nse_option_chain pf (Str.upper symbol) = Ok data /\
          jsonify_fault pf
            (if truthy data
             then option_chain_found (Str.upper symbol) data
             else no_data_found (Str.upper symbol)) = Some e) /\
       List.last (snd (get_option_chain pf key request [])) (Logged INFO "")
       = Logged ERROR
           ("NSE API error for symbol " ++ Str.upper symbol ++ ": "
            ++ str e)) \/
    (body r = PDict [("error", PStr "Internal server error");
                     ("message", PStr "An unexpected error occurred")] /\
     exists t0 : list event,
       get_option_chain_body pf request [] = (Raise e, t0) /\
       snd (get_option_chain pf key request [])
       = (t0 ++ [Logged ERROR ("Unexpected error: " ++ str e)])%list).
Proof.
  unfold get_option_chain.
  destruct (gate_either pf key request) as [G | [why [_ G]]];
    rewrite G; clear G.
  - revert r. run_option_chain.
    destruct (args_get request "symbol") as [[|c s]|] eqn:Hargs;
      split_run; intros r; read_response r.
    all: eexists;
      first [ right; split; [reflexivity|]; eexists; split; reflexivity
            | left; split; [reflexivity|]; exists (String c s);
              split; [reflexivity|]; split; [|reflexivity];
              first [ left; eassumption
                    | right; eexists; split; [eassumption|];
                      match goal with
                      | H : truthy _ = _ |- _ => rewrite H
                      end; eassumption ] ].
  - unfold refuse, bind, ret, raise, jsonify.
    destruct (jsonify_fault pf why); intros Hr Hs; inversion Hr; subst r;
      discriminate.
Qed.

Lemma server_error_logged_witness :
  fst (get_option_chain (reliable Sample.nse) Sample.key
         (Sample.with_key [("symbol", "slow")]) [])
  = Ok {| body := nse_api_error (PyExc "TimeoutError" "timeout");
          status := 500 |} /\
  List.last (snd (get_option_chain (reliable Sample.nse) Sample.key
                    (Sample.with_key [("symbol", "slow")]) []))
            (Logged INFO "")
  = Logged ERROR "NSE API error for symbol SLOW: timeout".
Proof.
  assert (H : fst (get_option_chain (reliable Sample.nse) Sample.key
                     (Sample.with_key [("symbol", "slow")]) [])
              = Ok {| body := nse_api_error (PyExc "TimeoutError" "timeout");
                      status := 500 |})
    by reflexivity.
  split; [exact H|].
  destruct (server_error_logged _ _ _ _ H eq_refl)
    as [e [[_ [symbol [_ [_ Hlast]]]] | [Hbody _]]].
  - reflexivity.
  - discriminate.
Defined.

(** X14.  On every platform, a 401 response from /option-chain means the
    request carried no valid credential; its body is one of the two
    refusals, and nothing was logged or fetched. *)
Theorem unauthorized_only_without_credential (pf : Platform)
    (env : option string) (key : string) (request : Request)
    (r : Response) :
  load_api_key env = Ok key ->
  request_to "/option-chain" request ->
  fst (app pf key request []) = Ok r ->
  status r = 401 ->
  ~ valid_credential key request /\
  (body r = authorization_required \/ body r = invalid_api_key) /\
  snd (app pf key request []) = [].
Proof.
  intros Hload Hto. rewrite (app_option_chain pf key request Hto).
  unfold get_option_chain.
  destruct (gate_by_credential pf key request
              (load_api_key_set env key Hload)) as [[Hv G] | [Hno _]].
  - rewrite G; clear G. revert r. run_option_chain.
    destruct (args_get request "symbol") as [[|c s]|];
      split_run; intros r; read_response r.
  - destruct (gate_either pf key request) as [G | [why [Hwhy G]]];
      rewrite G; clear G.
    + revert r. run_option_chain.
      destruct (args_get request "symbol") as [[|c s]|];
        split_run; intros r; read_response r.
    + unfold try_except, refuse, internal_error, bind, ret, raise, jsonify.
      split_run; read_response r.
      split; [exact Hno | split; [exact Hwhy | reflexivity]].
Qed.

Lemma unauthorized_only_without_credential_witness :
  load_api_key (Some Sample.key) = Ok Sample.key /\
  request_to "/option-chain" Probe.wrong_key /\
  fst (app (reliable Sample.nse) Sample.key Probe.wrong_key [])
  = Ok {| body := invalid_api_key; status := 401 |} /\
  ~ valid_credential Sample.key Probe.wrong_key.
Proof.
  assert (H1 : load_api_key (Some Sample.key) = Ok Sample.key)
    by reflexivity.
  assert (H2 : request_to "/option-chain" Probe.wrong_key)
    by (split; reflexivity).
  assert (H3 : fst (app (reliable Sample.nse) Sample.key Probe.wrong_key [])
               = Ok {| body := invalid_api_key; status := 401 |})
    by reflexivity.
  split; [exact H1 | split; [exact H2 | split; [exact H3|]]].
  exact (proj1 (unauthorized_only_without_credential _ _ _ _ _
                  H1 H2 H3 eq_refl)).
Defined.

(** X15.  On every platform, a 400 response from /option-chain means the
    credential was valid and the symbol parameter was absent or empty; the
    body is the "Symbol parameter is required" body and nothing was logged
    or fetched. *)
Theorem bad_request_only_without_symbol (pf : Platform)
    (env : option string) (key : string) (request : Request)
    (r : Response) :
  load_api_key env = Ok key ->
  request_to "/option-chain" request ->
  fst (app pf key request []) = Ok r ->
  status r = 400 ->
  valid_credential key request /\
  (args_get request "symbol" = None \/ args_get request "symbol" = Some "") /\
  body r = symbol_required /\
  snd (app pf key request []) = [].
Proof.
  intros Hload Hto. rewrite (app_option_chain pf key request Hto).
  unfold get_option_chain.
  destruct (gate_by_credential pf key request
              (load_api_key_set env key Hload)) as [[Hv G] | [_ [why G]]];
    rewrite G; clear G.
  - revert r. run_option_chain.
    destruct (args_get request "symbol") as [[|c s]|];
      split_run; intros r; read_response r.
    all: split; [exact Hv | split; [tauto | split; reflexivity]].
  - unfold try_except, refuse, internal_error, bind, ret, raise, jsonify.
    split_run; read_response r.
Qed.

Lemma bad_request_only_without_symbol_witness :
  load_api_key (Some Sample.key) = Ok Sample.key /\
  request_to "/option-chain" (Sample.with_key []) /\
  fst (app (reliable Sample.nse) Sample.key (Sample.with_key []) [])
  = Ok {| body := symbol_required; status := 400 |} /\
  valid_credential Sample.key (Sample.with_key []).
Proof.
  assert (H1 : load_api_key (Some Sample.key) = Ok Sample.key)
    by reflexivity.
  assert (H2 : request_to "/option-chain" (Sample.with_key []))
    by (split; reflexivity).
  assert (H3 : fst (app (reliable Sample.nse) Sample.key
                      (Sample.with_key []) [])
               = Ok {| body := symbol_required; status := 400 |})
    by reflexivity.
  split; [exact H1 | split; [exact H2 | split; [exact H3|]]].
  exact (proj1 (bad_request_only_without_symbol _ _ _ _ _
                  H1 H2 H3 eq_refl)).
Defined.

(** X16.  On every platform, a 404 response from /option-chain means the
    credential was valid and the provider returned a falsy payload for the
    uppercased symbol; the body is the "No data found" body naming that
    symbol. *)
Theorem no_data_only_from_empty_payload (pf : Platform)
    (env : option string) (key : string) (request : Request)
    (r : Response) :
  load_api_key env = Ok key ->
  request_to "/option-chain" request ->
  fst (app pf key request []) = Ok r ->
  status r = 404 ->
  valid_credential key request /\
  exists (symbol : string) (data : pyval),
    args_get request "symbol" = Some symbol /\ symbol <> "" /\
    nse_option_chain pf (Str.upper symbol) = Ok data /\
    truthy data = false /\
    body r = error_body "No data found"
               ("No option chain data found for symbol: "
                ++ Str.upper symbol).
Proof.
  intros Hload Hto. rewrite (app_option_chain pf key request Hto).
  unfold get_option_chain.
  destruct (gate_by_credential pf key request
              (load_api_key_set env key Hload)) as [[Hv G] | [_ [why G]]];
    rewrite G; clear G.
  - revert r. run_option_chain.
    destruct (args_get request "symbol") as [[|c s]|];
      split_run; intros r; read_response r.
    all: split; [exact Hv|].
    all: eexists (String c s), _; repeat split; try eassumption;
      discriminate.
  - unfold try_except, refuse, internal_error, bind, ret, raise, jsonify.
    split_run; read_response r.
Qed.

Lemma no_data_only_from_empty_payload_witness :
  load_api_key (Some Sample.key) = Ok Sample.key /\
  request_to "/option-chain" (Sample.with_key [("symbol", "fake")]) /\
  fst (app (reliable Sample.nse) Sample.key
         (Sample.with_key [("symbol", "fake")]) [])
  = Ok {| body := no_data_found "FAKE"; status := 404 |} /\
  valid_credential Sample.key (Sample.with_key [("symbol", "fake")]).
Proof.
  assert (H1 : load_api_key (Some Sample.key) = Ok Sample.key)
    by reflexivity.
  assert (H2 : request_to "/option-chain"
                 (Sample.with_key [("symbol", "fake")]))
    by (split; reflexivity).
  assert (H3 : fst (app (reliable Sample.nse) Sample.key
                      (Sample.with_key [("symbol", "fake")]) [])
               = Ok {| body := no_data_found "FAKE"; status := 404 |})
    by reflexivity.
  split; [exact H1 | split; [exact H2 | split; [exact H3|]]].
  exact (proj1 (no_data_only_from_empty_payload _ _ _ _ _
                  H1 H2 H3 eq_refl)).
Defined.
